(** * ngx-image-cropper: the image loading pipeline and the cropper state

    A shallow embedding of
    - [projects/ngx-image-cropper/src/lib/services/load-image.service.ts]
    - [projects/ngx-image-cropper/src/lib/component/cropper.state.ts]

    JavaScript numbers are IEEE 754 binary64 values, here Rocq's primitive
    floats: [*], [/], [<?] and [=?] are the operations the engine runs.
    Quarter-turn counts ([canvasRotation], [ExifTransform.rotate]) are
    integers and are modelled in [Z].  An optional or possibly undefined
    property is an [option], [None] being [undefined]. *)

From Stdlib Require Import ZArith Bool List String Ascii Floats Lia.
Import ListNotations.

Set Implicit Arguments.

(* ================================================================== *)
(** * JavaScript values and operators *)
(* ================================================================== *)

Module JS.

Definition number := float.
Bind Scope float_scope with number.

(** ToBoolean, the conversion behind [if (v)], [!v], [a && b] and [a || b]. *)
Class ToBoolean (A : Type) := truthy : A -> bool.

#[global] Instance boolean_ToBoolean : ToBoolean bool := fun b => b.
(** [+0], [-0] and [NaN] are the falsy numbers. *)
#[global] Instance number_ToBoolean : ToBoolean number :=
  fun x => negb (x =? 0)%float && negb (is_nan x).
#[global] Instance integer_ToBoolean : ToBoolean Z :=
  fun n => negb (n =? 0)%Z.
(** The empty string is the falsy string. *)
#[global] Instance string_ToBoolean : ToBoolean string :=
  fun s => match s with EmptyString => false | String _ _ => true end.
(** [undefined] is falsy. *)
#[global] Instance undefined_ToBoolean {A} `{ToBoolean A} : ToBoolean (option A) :=
  fun v => match v with Some a => truthy a | None => false end.

(** ToNumber of a property typed [number] that may be [undefined]. *)
Definition ToNumber (v : option number) : number :=
  match v with Some x => x | None => nan end.

(** [v ?? d] *)
Definition nullish {A} (v : option A) (d : A) : A :=
  match v with Some a => a | None => d end.

(** [a > b] on numbers. *)
Definition gt (a b : number) : bool := (b <? a)%float.
(** [a < b] on numbers. *)
Definition lt (a b : number) : bool := (a <? b)%float.
(** [a === b] and [a !== b] on numbers: [NaN] differs from itself. *)
Definition strict_eq (a b : number) : bool := (a =? b)%float.
Definition strict_neq (a b : number) : bool := negb (a =? b)%float.

Definition is_negative_zero (x : number) : bool :=
  match classify x with NZero => true | _ => false end.

(** [Math.max(a, b)]: [NaN] if either argument is [NaN]; [+0] is larger
    than [-0]. *)
Definition Math_max (a b : number) : number :=
  if is_nan a || is_nan b then nan
  else if (a <? b)%float then b
  else if (b <? a)%float then a
  else if is_negative_zero a then b
  else a.

(** [n % 2] on integers: the remainder has the sign of the dividend. *)
Definition rem2 (n : Z) : Z := Z.rem n 2.

(** An [Error] object, identified by its message, or the event an
    [onerror] handler receives. *)
Inductive Error :=
| ErrorObject (message : string)
| ErrorEvent.

End JS.

Export JS.

Notation "a ?? d" := (nullish a d) (at level 45, left associativity).

(* ================================================================== *)
(** * The interfaces both files import from [../interfaces] *)
(* ================================================================== *)

Record Dimensions := { width : number; height : number }.

Record CropperPosition := { x1 : number; y1 : number; x2 : number; y2 : number }.

(** [ExifTransform]: [rotate] counts quarter turns. *)
Record ExifTransform := { rotate : Z; flip : bool }.

(** What the code reads of an [HTMLImageElement].  [elementWidth] and
    [elementHeight] are its [width] and [height] properties. *)
Record HTMLImageElement := {
  src : string;
  complete : bool;
  naturalWidth : number;
  naturalHeight : number;
  elementWidth : number;
  elementHeight : number
}.

(** One rendered form of an image: [LoadedImage.original] or
    [LoadedImage.transformed]. *)
Record ImageVariant := {
  objectUrl : string;
  image : HTMLImageElement;
  size : Dimensions
}.

Record LoadedImage := {
  original : ImageVariant;
  transformed : ImageVariant;
  exifTransform : ExifTransform
}.

Record ImageTransform := {
  scale : option number;
  transformRotate : option number;
  flipH : option bool;
  flipV : option bool;
  translateH : option number;
  translateV : option number
}.

(** [CropperOptions].  A property holds [None] once a merge has written
    [undefined] into it. *)
Module Options.
Record t := {
  format : option string;
  output : option string;
  autoCrop : option bool;
  maintainAspectRatio : option bool;
  aspectRatio : option number;
  resetCropOnAspectRatioChange : option bool;
  resizeToWidth : option number;
  resizeToHeight : option number;
  cropperMinWidth : option number;
  cropperMinHeight : option number;
  cropperMaxHeight : option number;
  cropperMaxWidth : option number;
  cropperStaticWidth : option number;
  cropperStaticHeight : option number;
  canvasRotation : option Z;
  roundCropper : option bool;
  onlyScaleDown : option bool;
  imageQuality : option number;
  backgroundColor : option string;
  containWithinAspectRatio : option bool;
  hideResizeSquares : option bool;
  alignImage : option string;
  cropperFrameAriaLabel : option string;
  checkImageType : option bool
}.
End Options.
Abbreviation CropperOptions := Options.t.

(** A property of an object literal: the key is missing, or it is there
    with a value that may be [undefined]. *)
Inductive property (A : Type) :=
| Missing
| Key (v : option A).
Arguments Missing {A}.
Arguments Key {A} v.

(** [key in obj] *)
Definition has_key {A} (p : property A) : bool :=
  match p with Missing => false | Key _ => true end.

(** [obj[key]] *)
Definition get {A} (p : property A) : option A :=
  match p with Missing => None | Key v => v end.

(** What [{...target, ...source}] leaves in one property. *)
Definition spread {A} (target : option A) (source : property A) : option A :=
  match source with Missing => target | Key v => v end.

(** [Partial<CropperOptions>] *)
Module Partial.
Record t := {
  format : property string;
  output : property string;
  autoCrop : property bool;
  maintainAspectRatio : property bool;
  aspectRatio : property number;
  resetCropOnAspectRatioChange : property bool;
  resizeToWidth : property number;
  resizeToHeight : property number;
  cropperMinWidth : property number;
  cropperMinHeight : property number;
  cropperMaxHeight : property number;
  cropperMaxWidth : property number;
  cropperStaticWidth : property number;
  cropperStaticHeight : property number;
  canvasRotation : property Z;
  roundCropper : property bool;
  onlyScaleDown : property bool;
  imageQuality : property number;
  backgroundColor : property string;
  containWithinAspectRatio : property bool;
  hideResizeSquares : property bool;
  alignImage : property string;
  cropperFrameAriaLabel : property string;
  checkImageType : property bool
}.

(** The object literal [{}]. *)
Definition empty : t :=
  Build_t Missing Missing Missing Missing Missing Missing Missing Missing
          Missing Missing Missing Missing Missing Missing Missing Missing
          Missing Missing Missing Missing Missing Missing Missing Missing.
End Partial.
Abbreviation PartialOptions := Partial.t.

(** [{...options, ...partial}] *)
Definition merge (o : CropperOptions) (p : PartialOptions) : CropperOptions :=
  {| Options.format := spread o.(Options.format) p.(Partial.format);
     Options.output := spread o.(Options.output) p.(Partial.output);
     Options.autoCrop := spread o.(Options.autoCrop) p.(Partial.autoCrop);
     Options.maintainAspectRatio :=
       spread o.(Options.maintainAspectRatio) p.(Partial.maintainAspectRatio);
     Options.aspectRatio := spread o.(Options.aspectRatio) p.(Partial.aspectRatio);
     Options.resetCropOnAspectRatioChange :=
       spread o.(Options.resetCropOnAspectRatioChange)
              p.(Partial.resetCropOnAspectRatioChange);
     Options.resizeToWidth := spread o.(Options.resizeToWidth) p.(Partial.resizeToWidth);
     Options.resizeToHeight := spread o.(Options.resizeToHeight) p.(Partial.resizeToHeight);
     Options.cropperMinWidth := spread o.(Options.cropperMinWidth) p.(Partial.cropperMinWidth);
     Options.cropperMinHeight :=
       spread o.(Options.cropperMinHeight) p.(Partial.cropperMinHeight);
     Options.cropperMaxHeight :=
       spread o.(Options.cropperMaxHeight) p.(Partial.cropperMaxHeight);
     Options.cropperMaxWidth := spread o.(Options.cropperMaxWidth) p.(Partial.cropperMaxWidth);
     Options.cropperStaticWidth :=
       spread o.(Options.cropperStaticWidth) p.(Partial.cropperStaticWidth);
     Options.cropperStaticHeight :=
       spread o.(Options.cropperStaticHeight) p.(Partial.cropperStaticHeight);
     Options.canvasRotation := spread o.(Options.canvasRotation) p.(Partial.canvasRotation);
     Options.roundCropper := spread o.(Options.roundCropper) p.(Partial.roundCropper);
     Options.onlyScaleDown := spread o.(Options.onlyScaleDown) p.(Partial.onlyScaleDown);
     Options.imageQuality := spread o.(Options.imageQuality) p.(Partial.imageQuality);
     Options.backgroundColor := spread o.(Options.backgroundColor) p.(Partial.backgroundColor);
     Options.containWithinAspectRatio :=
       spread o.(Options.containWithinAspectRatio) p.(Partial.containWithinAspectRatio);
     Options.hideResizeSquares :=
       spread o.(Options.hideResizeSquares) p.(Partial.hideResizeSquares);
     Options.alignImage := spread o.(Options.alignImage) p.(Partial.alignImage);
     Options.cropperFrameAriaLabel :=
       spread o.(Options.cropperFrameAriaLabel) p.(Partial.cropperFrameAriaLabel);
     Options.checkImageType := spread o.(Options.checkImageType) p.(Partial.checkImageType) |}.

(** [LoadImageOptions]: every property is optional. *)
Module LoadOptions.
Record t := {
  format : option string;
  checkImageType : option bool;
  canvasRotation : option Z;
  aspectRatio : option number;
  containWithinAspectRatio : option bool
}.
End LoadOptions.
Abbreviation LoadImageOptions := LoadOptions.t.

(* ================================================================== *)
(** * Regular expressions, as far as [isValidImageType] uses them *)
(* ================================================================== *)

Module RegExp.

(** Pattern syntax: literal characters, [.], concatenation and [|].
    [Void] matches nothing and only arises while matching.  Strings are
    sequences of 8-bit characters, as MIME types are. *)
Inductive t :=
| Void
| Eps
| Chr (c : ascii)
| Dot
| Cat (r s : t)
| Alt (r s : t).

(** [.] matches any character but a line terminator; line feed and
    carriage return are the ones an 8-bit character can be. *)
Definition line_terminator (c : ascii) : bool :=
  (c =? "010")%char || (c =? "013")%char.

Fixpoint literal (s : string) : t :=
  match s with
  | EmptyString => Eps
  | String c s' => Cat (Chr c) (literal s')
  end.

Fixpoint alternatives (rs : list t) : t :=
  match rs with
  | [] => Void
  | r :: rs' => Alt r (alternatives rs')
  end.

Fixpoint nullable (r : t) : bool :=
  match r with
  | Void | Chr _ | Dot => false
  | Eps => true
  | Cat r s => nullable r && nullable s
  | Alt r s => nullable r || nullable s
  end.

(** What is left of [r] once it has read [c]. *)
Fixpoint derivative (c : ascii) (r : t) : t :=
  match r with
  | Void | Eps => Void
  | Chr a => if (a =? c)%char then Eps else Void
  | Dot => if line_terminator c then Void else Eps
  | Cat r s =>
      if nullable r
      then Alt (Cat (derivative c r) s) (derivative c s)
      else Cat (derivative c r) s
  | Alt r s => Alt (derivative c r) (derivative c s)
  end.

(** Some prefix of [s] matches [r]. *)
Fixpoint match_at_start (r : t) (s : string) : bool :=
  nullable r ||
  match s with
  | EmptyString => false
  | String c s' => match_at_start (derivative c r) s'
  end.

(** [r.test(s)] for a pattern without flags or anchors: a match may start
    at any index of [s]. *)
Fixpoint test (r : t) (s : string) : bool :=
  match_at_start r s ||
  match s with
  | EmptyString => false
  | String _ s' => test r s'
  end.

(** The strings a pattern matches. *)
Inductive matches : t -> string -> Prop :=
| matches_Eps : matches Eps EmptyString
| matches_Chr c : matches (Chr c) (String c EmptyString)
| matches_Dot c : line_terminator c = false -> matches Dot (String c EmptyString)
| matches_Cat r s u v : matches r u -> matches s v -> matches (Cat r s) (u ++ v)
| matches_Alt_l r s u : matches r u -> matches (Alt r s) u
| matches_Alt_r r s u : matches s u -> matches (Alt r s) u.

End RegExp.

(* ================================================================== *)
(** * Promises over the host's asynchronous operations *)
(* ================================================================== *)

Definition ArrayBufferLike := list Byte.byte.

Record Blob := { blobParts : ArrayBufferLike; blobType : option string }.

(** [File]: its declared MIME type and what [arrayBuffer()] yields. *)
Record File := { fileType : string; fileBytes : ArrayBufferLike }.

(** The root [svg] element's attributes; [getAttribute] gives [None]
    ([null]) for one that is not there. *)
Record SvgElement := {
  widthAttr : option string;
  heightAttr : option string;
  viewBoxAttr : option string;
  viewboxAttr : option string
}.

(** A canvas as the host made it: the size it took and whether
    [getContext('2d')] gave a context. *)
Record HTMLCanvasElement := {
  canvasWidth : number;
  canvasHeight : number;
  hasContext2d : bool
}.

(** Calls on the 2d context.  [Rotate q] is [ctx.rotate(Math.PI * (q / 2))]. *)
Inductive ContextCall :=
| SetTransform (a b c d e f : number)
| Rotate (quarterTurns : Z)
| DrawImage (img : HTMLImageElement) (dx dy : number).

(** The operations a promise of the service waits for. *)
Inductive Host : Type -> Type :=
| FileArrayBuffer (file : File) : Host ArrayBufferLike
| CreateObjectURL (blob : Blob) : Host string
| QuerySvgElement (blob : Blob) : Host (option SvgElement)
| ImageOnLoad (url : string) : Host (option HTMLImageElement)
| AutoRotateSupported : Host bool
| CreateCanvas (w h : number) : Host HTMLCanvasElement
| CanvasToBlob (canvas : HTMLCanvasElement) (calls : list ContextCall)
               (type : string) : Host (option Blob).

Inductive Promise (A : Type) : Type :=
| Resolved (a : A)
| Rejected (e : Error)
| Await {X : Type} (op : Host X) (k : X -> Promise A).
Arguments Resolved {A} a.
Arguments Rejected {A} e.
Arguments Await {A X} op k.

Fixpoint bind {A B} (p : Promise A) (f : A -> Promise B) : Promise B :=
  match p with
  | Resolved a => f a
  | Rejected e => Rejected e
  | Await op k => Await op (fun x => bind (k x) f)
  end.

Notation "x <- p ;; q" := (bind p (fun x => q))
  (at level 61, p at next level, right associativity).

Definition await {X} (op : Host X) : Promise X := Await op (fun x => Resolved x).

(** Some answers of the host lead the promise to an operation that
    satisfies [P]. *)
Fixpoint performs {A} (P : forall X, Host X -> Prop) (p : Promise A) : Prop :=
  match p with
  | Await op k => P _ op \/ exists x, performs P (k x)
  | _ => False
  end.

(** The operations that work on the image bytes: making the object URL,
    reading the SVG document, loading the bitmap. *)
Definition decoding (X : Type) (op : Host X) : Prop :=
  match op with
  | CreateObjectURL _ | QuerySvgElement _ | ImageOnLoad _ => True
  | _ => False
  end.

(** Work on a canvas. *)
Definition rendering (X : Type) (op : Host X) : Prop :=
  match op with
  | CreateCanvas _ _ | CanvasToBlob _ _ _ => True
  | _ => False
  end.

(* ================================================================== *)
(** * load-image.service.ts *)
(* ================================================================== *)

Module LoadImageService.

Record LoadImageArrayBuffer := {
  originalImage : HTMLImageElement;
  originalArrayBuffer : ArrayBufferLike;
  originalObjectUrl : string;
  originalImageSize : option Dimensions
}.

(** [Partial<LoadedImage>] as [transformLoadedImage] reads it: [original]
    and [exifTransform] are asserted to be there, [transformed] is not
    looked at. *)
Module PartialImage.
Record t := {
  original : ImageVariant;
  transformed : option ImageVariant;
  exifTransform : ExifTransform
}.
End PartialImage.

Definition InvalidImageTypeError : Error := ErrorObject "Invalid image type".

(** The pattern of [isValidImageType],
    [/image\/(png|jpg|jpeg|heic|bmp|gif|tiff|svg|webp|x-icon|vnd.microsoft.icon)/]. *)
Definition plainSubtypes : list string :=
  [ "png"; "jpg"; "jpeg"; "heic"; "bmp"; "gif"; "tiff"; "svg"; "webp"; "x-icon" ]%string.

(** [vnd.microsoft.icon], whose two dots are wildcards. *)
Definition iconSubtype : RegExp.t :=
  RegExp.Cat (RegExp.literal "vnd")
    (RegExp.Cat RegExp.Dot
       (RegExp.Cat (RegExp.literal "microsoft")
          (RegExp.Cat RegExp.Dot (RegExp.literal "icon")))).

Definition imageTypePattern : RegExp.t :=
  RegExp.Cat (RegExp.literal "image/")
    (RegExp.alternatives (map RegExp.literal plainSubtypes ++ [iconSubtype])).

Definition isValidImageType (type : string) : bool :=
  RegExp.test imageTypePattern type.

(** [s.split(' ')] *)
Fixpoint split_on (sep : ascii) (s : string) : list string :=
  match s with
  | EmptyString => [EmptyString]
  | String c s' =>
      if (c =? sep)%char then EmptyString :: split_on sep s'
      else match split_on sep s' with
           | [] => [String c EmptyString]
           | x :: xs => String c x :: xs
           end
  end.

Definition getTransformedSize (originalSize : Dimensions)
    (exifTransform : ExifTransform) (options : LoadImageOptions) : Dimensions :=
  let canvasRotation :=
    ((options.(LoadOptions.canvasRotation) ?? 0) + exifTransform.(rotate))%Z in
  if truthy options.(LoadOptions.containWithinAspectRatio) then
    if truthy (rem2 canvasRotation) then
      let minWidthToContain :=
        (originalSize.(width) * (options.(LoadOptions.aspectRatio) ?? 1))%float in
      let minHeightToContain :=
        (originalSize.(height) / (options.(LoadOptions.aspectRatio) ?? 1))%float in
      {| width := Math_max originalSize.(height) minWidthToContain;
         height := Math_max originalSize.(width) minHeightToContain |}
    else
      let minWidthToContain :=
        (originalSize.(height) * (options.(LoadOptions.aspectRatio) ?? 1))%float in
      let minHeightToContain :=
        (originalSize.(width) / (options.(LoadOptions.aspectRatio) ?? 1))%float in
      {| width := Math_max originalSize.(width) minWidthToContain;
         height := Math_max originalSize.(height) minHeightToContain |}
  else if truthy (rem2 canvasRotation) then
    {| width := originalSize.(height); height := originalSize.(width) |}
  else
    {| width := originalSize.(width); height := originalSize.(height) |}.

Definition loadImageFromObjectUrl (objectUrl : string) : Promise HTMLImageElement :=
  loaded <- await (ImageOnLoad objectUrl) ;;
  match loaded with
  | Some image => Resolved image
  | None => Rejected ErrorEvent
  end.

(** The [LoadedImage] of the branch that renders nothing: [transformed]
    carries the original's object URL, bitmap and size. *)
Definition reuseOriginal (loadedImage : PartialImage.t) : LoadedImage :=
  let originalSize := loadedImage.(PartialImage.original).(size) in
  {| original :=
       {| objectUrl := loadedImage.(PartialImage.original).(objectUrl);
          image := loadedImage.(PartialImage.original).(image);
          size := originalSize |};
     transformed :=
       {| objectUrl := loadedImage.(PartialImage.original).(objectUrl);
          image := loadedImage.(PartialImage.original).(image);
          size := originalSize |};
     exifTransform := loadedImage.(PartialImage.exifTransform) |}.

Definition transformLoadedImage (loadedImage : PartialImage.t)
    (options : LoadImageOptions) (forceTransform : bool) : Promise LoadedImage :=
  let exif := loadedImage.(PartialImage.exifTransform) in
  let canvasRotation :=
    ((options.(LoadOptions.canvasRotation) ?? 0) + exif.(rotate))%Z in
  let originalSize := loadedImage.(PartialImage.original).(size) in
  if negb forceTransform && (canvasRotation =? 0)%Z && negb exif.(flip)
     && negb (truthy options.(LoadOptions.containWithinAspectRatio))
  then Resolved (reuseOriginal loadedImage)
  else
    let transformedSize := getTransformedSize originalSize exif options in
    canvas <- await (CreateCanvas transformedSize.(width) transformedSize.(height)) ;;
    let calls :=
      if canvas.(hasContext2d) then
        [ SetTransform (if exif.(flip) then (-1)%float else 1%float) 0 0 1
            (canvas.(canvasWidth) / 2)%float (canvas.(canvasHeight) / 2)%float;
          Rotate canvasRotation;
          DrawImage loadedImage.(PartialImage.original).(image)
            (- originalSize.(width) / 2)%float (- originalSize.(height) / 2)%float ]
      else [] in
    blob <- await (CanvasToBlob canvas calls
                     ("image/" ++ (options.(LoadOptions.format) ?? "png"))%string) ;;
    match blob with
    | None => Rejected (ErrorObject "Failed to get Blob for transformed image.")
    | Some blob =>
        url <- await (CreateObjectURL blob) ;;
        transformedImage <- loadImageFromObjectUrl url ;;
        Resolved
          {| original :=
               {| objectUrl := loadedImage.(PartialImage.original).(objectUrl);
                  image := loadedImage.(PartialImage.original).(image);
                  size := originalSize |};
             transformed :=
               {| objectUrl := url;
                  image := transformedImage;
                  size := {| width := transformedImage.(elementWidth);
                             height := transformedImage.(elementHeight) |} |};
             exifTransform := exif |}
    end.

Section Service.

(** [getTransformationsFromExifData] of [../utils/exif.utils], called with
    [-1] or with the bytes. *)
Variable getTransformationsFromExifData : Z + ArrayBufferLike -> ExifTransform.

(** The unary [+] on a string. *)
Variable StringToNumber : string -> number.

Definition getSvgImageSize (blob : Blob) : Promise (option Dimensions) :=
  svgElement <- await (QuerySvgElement blob) ;;
  match svgElement with
  | None => Rejected (ErrorObject "Failed to parse SVG image")
  | Some svgElement =>
      if truthy svgElement.(widthAttr) && truthy svgElement.(heightAttr)
      then Resolved None
      else
        let viewBoxAttr :=
          if truthy svgElement.(viewBoxAttr) then svgElement.(viewBoxAttr)
          else svgElement.(viewboxAttr) in
        match viewBoxAttr with
        | Some attr =>
            if truthy attr then
              let viewBox := split_on " " attr in
              let unary_plus (v : option string) :=
                match v with Some s => StringToNumber s | None => nan end in
              Resolved (Some {| width := unary_plus (nth_error viewBox 2);
                                height := unary_plus (nth_error viewBox 3) |})
            else Rejected (ErrorObject
              "Failed to load SVG image. SVG must have width + height or viewBox definition.")
        | None => Rejected (ErrorObject
            "Failed to load SVG image. SVG must have width + height or viewBox definition.")
        end
  end.

Definition transformImageFromArrayBuffer (res : LoadImageArrayBuffer)
    (options : LoadImageOptions) (forceTransform : bool) : Promise LoadedImage :=
  autoRotate <- await AutoRotateSupported ;;
  let exifTransform :=
    getTransformationsFromExifData
      (if autoRotate then inl (-1)%Z else inr res.(originalArrayBuffer)) in
  if negb res.(originalImage).(complete) then
    Rejected (ErrorObject "No image loaded")
  else
    let loadedImage :=
      {| PartialImage.original :=
           {| objectUrl := res.(originalObjectUrl);
              image := res.(originalImage);
              size := res.(originalImageSize) ??
                        {| width := res.(originalImage).(naturalWidth);
                           height := res.(originalImage).(naturalHeight) |} |};
         PartialImage.transformed := None;
         PartialImage.exifTransform := exifTransform |} in
    transformLoadedImage loadedImage options forceTransform.

Definition loadImageFromArrayBuffer (arrayBuffer : ArrayBufferLike)
    (options : LoadImageOptions) (imageType : option string) : Promise LoadedImage :=
  let blob := {| blobParts := arrayBuffer;
                 blobType := if truthy imageType then imageType else None |} in
  url <- await (CreateObjectURL blob) ;;
  let isSvg := match imageType with
               | Some type => (type =? "image/svg+xml")%string
               | None => false
               end in
  svgSize <- (if isSvg then getSvgImageSize blob else Resolved None) ;;
  img <- loadImageFromObjectUrl url ;;
  let res := {| originalImage := img;
                originalImageSize := svgSize;
                originalObjectUrl := url;
                originalArrayBuffer := arrayBuffer |} in
  transformImageFromArrayBuffer res options
    (match res.(originalImageSize) with Some _ => true | None => false end).

Definition checkImageTypeAndLoadImageFromArrayBuffer (arrayBuffer : ArrayBufferLike)
    (imageType : string) (options : LoadImageOptions) : Promise LoadedImage :=
  if negb (isValidImageType imageType) then Rejected InvalidImageTypeError
  else loadImageFromArrayBuffer arrayBuffer options (Some imageType).

Definition loadImageFile (file : File) (options : LoadImageOptions)
    : Promise LoadedImage :=
  arrayBuffer <- await (FileArrayBuffer file) ;;
  if truthy options.(LoadOptions.checkImageType) then
    checkImageTypeAndLoadImageFromArrayBuffer arrayBuffer file.(fileType) options
  else loadImageFromArrayBuffer arrayBuffer options None.

End Service.

End LoadImageService.

(* ================================================================== *)
(** * cropper.state.ts *)
(* ================================================================== *)

(** How a method call ends: it returns, or it throws; either way the
    object is left in some state. *)
Inductive completion (S : Type) :=
| Normal (this : S)
| Throw (e : Error) (this : S).
Arguments Normal {S} this.
Arguments Throw {S} e this.

Module CropperState.

Local Open Scope float_scope.

(** The fields of the class; the two signals hold their current value. *)
Record t := {
  cropper : CropperPosition;
  loadedImage : option LoadedImage;
  maxSize : Dimensions;
  transform : ImageTransform;
  options : CropperOptions;
  cropperScaledMinWidth : number;
  cropperScaledMinHeight : number;
  cropperScaledMaxWidth : number;
  cropperScaledMaxHeight : number;
  stepSize : number
}.

(** The field initialisers. *)
Definition defaultOptions : CropperOptions :=
  {| Options.format := Some "png"%string;
     Options.output := Some "blob"%string;
     Options.autoCrop := Some true;
     Options.maintainAspectRatio := Some true;
     Options.aspectRatio := Some 1%float;
     Options.resetCropOnAspectRatioChange := Some true;
     Options.resizeToWidth := Some 0%float;
     Options.resizeToHeight := Some 0%float;
     Options.cropperMinWidth := Some 0%float;
     Options.cropperMinHeight := Some 0%float;
     Options.cropperMaxHeight := Some 0%float;
     Options.cropperMaxWidth := Some 0%float;
     Options.cropperStaticWidth := Some 0%float;
     Options.cropperStaticHeight := Some 0%float;
     Options.canvasRotation := Some 0%Z;
     Options.roundCropper := Some false;
     Options.onlyScaleDown := Some false;
     Options.imageQuality := Some 92%float;
     Options.backgroundColor := None;
     Options.containWithinAspectRatio := Some false;
     Options.hideResizeSquares := Some false;
     Options.alignImage := Some "center"%string;
     Options.cropperFrameAriaLabel := None;
     Options.checkImageType := Some true |}.

Definition new : t :=
  {| cropper := {| x1 := 0; x2 := 0; y1 := 0; y2 := 0 |};
     loadedImage := None;
     maxSize := {| width := 0; height := 0 |};
     transform := Build_ImageTransform None None None None None None;
     options := defaultOptions;
     cropperScaledMinWidth := 20;
     cropperScaledMinHeight := 20;
     cropperScaledMaxWidth := 20;
     cropperScaledMaxHeight := 20;
     stepSize := 3 |}.

(** Assignments to one field. *)
Definition set_cropper (v : CropperPosition) (this : t) : t :=
  {| cropper := v; loadedImage := this.(loadedImage); maxSize := this.(maxSize);
     transform := this.(transform); options := this.(options);
     cropperScaledMinWidth := this.(cropperScaledMinWidth);
     cropperScaledMinHeight := this.(cropperScaledMinHeight);
     cropperScaledMaxWidth := this.(cropperScaledMaxWidth);
     cropperScaledMaxHeight := this.(cropperScaledMaxHeight);
     stepSize := this.(stepSize) |}.

Definition set_loadedImage (v : option LoadedImage) (this : t) : t :=
  {| cropper := this.(cropper); loadedImage := v; maxSize := this.(maxSize);
     transform := this.(transform); options := this.(options);
     cropperScaledMinWidth := this.(cropperScaledMinWidth);
     cropperScaledMinHeight := this.(cropperScaledMinHeight);
     cropperScaledMaxWidth := this.(cropperScaledMaxWidth);
     cropperScaledMaxHeight := this.(cropperScaledMaxHeight);
     stepSize := this.(stepSize) |}.

Definition set_maxSize (v : Dimensions) (this : t) : t :=
  {| cropper := this.(cropper); loadedImage := this.(loadedImage); maxSize := v;
     transform := this.(transform); options := this.(options);
     cropperScaledMinWidth := this.(cropperScaledMinWidth);
     cropperScaledMinHeight := this.(cropperScaledMinHeight);
     cropperScaledMaxWidth := this.(cropperScaledMaxWidth);
     cropperScaledMaxHeight := this.(cropperScaledMaxHeight);
     stepSize := this.(stepSize) |}.

Definition set_options (v : CropperOptions) (this : t) : t :=
  {| cropper := this.(cropper); loadedImage := this.(loadedImage);
     maxSize := this.(maxSize); transform := this.(transform); options := v;
     cropperScaledMinWidth := this.(cropperScaledMinWidth);
     cropperScaledMinHeight := this.(cropperScaledMinHeight);
     cropperScaledMaxWidth := this.(cropperScaledMaxWidth);
     cropperScaledMaxHeight := this.(cropperScaledMaxHeight);
     stepSize := this.(stepSize) |}.

Definition set_cropperScaledMinWidth (v : number) (this : t) : t :=
  {| cropper := this.(cropper); loadedImage := this.(loadedImage);
     maxSize := this.(maxSize); transform := this.(transform);
     options := this.(options);
     cropperScaledMinWidth := v;
     cropperScaledMinHeight := this.(cropperScaledMinHeight);
     cropperScaledMaxWidth := this.(cropperScaledMaxWidth);
     cropperScaledMaxHeight := this.(cropperScaledMaxHeight);
     stepSize := this.(stepSize) |}.

Definition set_cropperScaledMinHeight (v : number) (this : t) : t :=
  {| cropper := this.(cropper); loadedImage := this.(loadedImage);
     maxSize := this.(maxSize); transform := this.(transform);
     options := this.(options);
     cropperScaledMinWidth := this.(cropperScaledMinWidth);
     cropperScaledMinHeight := v;
     cropperScaledMaxWidth := this.(cropperScaledMaxWidth);
     cropperScaledMaxHeight := this.(cropperScaledMaxHeight);
     stepSize := this.(stepSize) |}.

Definition set_cropperScaledMaxWidth (v : number) (this : t) : t :=
  {| cropper := this.(cropper); loadedImage := this.(loadedImage);
     maxSize := this.(maxSize); transform := this.(transform);
     options := this.(options);
     cropperScaledMinWidth := this.(cropperScaledMinWidth);
     cropperScaledMinHeight := this.(cropperScaledMinHeight);
     cropperScaledMaxWidth := v;
     cropperScaledMaxHeight := this.(cropperScaledMaxHeight);
     stepSize := this.(stepSize) |}.

Definition set_cropperScaledMaxHeight (v : number) (this : t) : t :=
  {| cropper := this.(cropper); loadedImage := this.(loadedImage);
     maxSize := this.(maxSize); transform := this.(transform);
     options := this.(options);
     cropperScaledMinWidth := this.(cropperScaledMinWidth);
     cropperScaledMinHeight := this.(cropperScaledMinHeight);
     cropperScaledMaxWidth := this.(cropperScaledMaxWidth);
     cropperScaledMaxHeight := v;
     stepSize := this.(stepSize) |}.

Definition ConfigurationError : Error :=
  ErrorObject "`aspectRatio` should > 0 when `maintainAspectRatio` is enabled".

(** [validateOptions]: the error it throws, if any. *)
Definition validateOptions (this : t) : option Error :=
  if truthy this.(options).(Options.maintainAspectRatio)
     && negb (truthy this.(options).(Options.aspectRatio))
  then Some ConfigurationError
  else None.

(** [setCropperScaledMinWidth], with [this.loadedImage!] at hand. *)
Definition setCropperScaledMinWidth (loaded : LoadedImage) (this : t) : t :=
  set_cropperScaledMinWidth
    (if gt (ToNumber this.(options).(Options.cropperMinWidth)) 0
     then Math_max 20
            (ToNumber this.(options).(Options.cropperMinWidth)
               / loaded.(transformed).(size).(width) * this.(maxSize).(width))
     else 20)
    this.

(** [setCropperScaledMinHeight], with [this.loadedImage!] at hand. *)
Definition setCropperScaledMinHeight (loaded : LoadedImage) (this : t) : t :=
  if truthy this.(options).(Options.maintainAspectRatio) then
    set_cropperScaledMinHeight
      (Math_max 20
         (this.(cropperScaledMinWidth) / ToNumber this.(options).(Options.aspectRatio)))
      this
  else if gt (ToNumber this.(options).(Options.cropperMinHeight)) 0 then
    set_cropperScaledMinHeight
      (Math_max 20
         (ToNumber this.(options).(Options.cropperMinHeight)
            / loaded.(transformed).(size).(height) * this.(maxSize).(height)))
      this
  else set_cropperScaledMinHeight 20 this.

Definition setCropperScaledMinSize (this : t) : t :=
  match this.(loadedImage) with
  | Some loaded => setCropperScaledMinHeight loaded (setCropperScaledMinWidth loaded this)
  | None => set_cropperScaledMinHeight 20 (set_cropperScaledMinWidth 20 this)
  end.

Definition setCropperScaledMaxSize (this : t) : t :=
  match this.(loadedImage) with
  | Some loaded =>
      let ratio := loaded.(transformed).(size).(width) / this.(maxSize).(width) in
      let this :=
        set_cropperScaledMaxWidth
          (if gt (ToNumber this.(options).(Options.cropperMaxWidth)) 20
           then ToNumber this.(options).(Options.cropperMaxWidth) / ratio
           else this.(maxSize).(width)) this in
      let this :=
        set_cropperScaledMaxHeight
          (if gt (ToNumber this.(options).(Options.cropperMaxHeight)) 20
           then ToNumber this.(options).(Options.cropperMaxHeight) / ratio
           else this.(maxSize).(height)) this in
      if truthy this.(options).(Options.maintainAspectRatio) then
        if gt this.(cropperScaledMaxWidth)
              (this.(cropperScaledMaxHeight) * ToNumber this.(options).(Options.aspectRatio))
        then
          set_cropperScaledMaxWidth
            (this.(cropperScaledMaxHeight) * ToNumber this.(options).(Options.aspectRatio))
            this
        else if lt this.(cropperScaledMaxWidth)
                   (this.(cropperScaledMaxHeight)
                      * ToNumber this.(options).(Options.aspectRatio))
        then
          set_cropperScaledMaxHeight
            (this.(cropperScaledMaxWidth) / ToNumber this.(options).(Options.aspectRatio))
            this
        else this
      else this
  | None =>
      set_cropperScaledMaxHeight this.(maxSize).(height)
        (set_cropperScaledMaxWidth this.(maxSize).(width) this)
  end.

Definition setMaxSize (width height : number) (this : t) : t :=
  let this := set_maxSize {| width := width; height := height |} this in
  let this := setCropperScaledMinSize this in
  setCropperScaledMaxSize this.

Definition aspectRatioIsCorrect (this : t) : bool :=
  let localCropper := this.(cropper) in
  let currentCropAspectRatio :=
    (localCropper.(x2) - localCropper.(x1)) / (localCropper.(y2) - localCropper.(y1)) in
  strict_eq currentCropAspectRatio (ToNumber this.(options).(Options.aspectRatio)).

Definition resizeCropperPosition (oldMaxSize : Dimensions) (this : t) : t :=
  if strict_neq oldMaxSize.(width) this.(maxSize).(width)
     || strict_neq oldMaxSize.(height) this.(maxSize).(height)
  then
    let cropper := this.(cropper) in
    set_cropper
      {| x1 := cropper.(x1) * this.(maxSize).(width) / oldMaxSize.(width);
         x2 := cropper.(x2) * this.(maxSize).(width) / oldMaxSize.(width);
         y1 := cropper.(y1) * this.(maxSize).(height) / oldMaxSize.(height);
         y2 := cropper.(y2) * this.(maxSize).(height) / oldMaxSize.(height) |}
      this
  else this.

Definition maxSizeCropperPosition (this : t) : CropperPosition :=
  {| x1 := 0; y1 := 0;
     x2 := this.(maxSize).(width);
     y2 := this.(maxSize).(height) |}.

(** [this.loadedImage?.transformed.image.complete] *)
Definition imageComplete (this : t) : option bool :=
  match this.(loadedImage) with
  | Some loaded => Some loaded.(transformed).(image).(complete)
  | None => None
  end.

(** [equalsTransformTranslate] *)
Definition equalsTransformTranslate (transform : ImageTransform) (this : t) : bool :=
  strict_eq (this.(CropperState.transform).(translateH) ?? 0) (transform.(translateH) ?? 0)
  && strict_eq (this.(CropperState.transform).(translateV) ?? 0)
               (transform.(translateV) ?? 0).

(** [equalsTransform]; [===] on booleans is [Bool.eqb]. *)
Definition equalsTransform (transform : ImageTransform) (this : t) : bool :=
  equalsTransformTranslate transform this
  && strict_eq (this.(CropperState.transform).(scale) ?? 1) (transform.(scale) ?? 1)
  && strict_eq (this.(CropperState.transform).(transformRotate) ?? 0)
               (transform.(transformRotate) ?? 0)
  && Bool.eqb (this.(CropperState.transform).(flipH) ?? false) (transform.(flipH) ?? false)
  && Bool.eqb (this.(CropperState.transform).(flipV) ?? false) (transform.(flipV) ?? false).

(** Angular's [SimpleChanges] as [setOptionsFromChanges] reads them: the
    [currentValue] of the entry [options], if there is one and it is an
    object; the entries whose key is the name of an option, a [Key] holding
    the entry's [currentValue]; and the keys of all other entries. *)
Record SimpleChanges := {
  optionsChange : option PartialOptions;
  optionChanges : PartialOptions;
  otherChanges : list string
}.

(** [Object.keys(partial).length > 0] *)
Definition has_keys (partial : PartialOptions) : bool :=
  has_key partial.(Partial.format) || has_key partial.(Partial.output)
  || has_key partial.(Partial.autoCrop) || has_key partial.(Partial.maintainAspectRatio)
  || has_key partial.(Partial.aspectRatio)
  || has_key partial.(Partial.resetCropOnAspectRatioChange)
  || has_key partial.(Partial.resizeToWidth) || has_key partial.(Partial.resizeToHeight)
  || has_key partial.(Partial.cropperMinWidth) || has_key partial.(Partial.cropperMinHeight)
  || has_key partial.(Partial.cropperMaxHeight) || has_key partial.(Partial.cropperMaxWidth)
  || has_key partial.(Partial.cropperStaticWidth)
  || has_key partial.(Partial.cropperStaticHeight)
  || has_key partial.(Partial.canvasRotation) || has_key partial.(Partial.roundCropper)
  || has_key partial.(Partial.onlyScaleDown) || has_key partial.(Partial.imageQuality)
  || has_key partial.(Partial.backgroundColor)
  || has_key partial.(Partial.containWithinAspectRatio)
  || has_key partial.(Partial.hideResizeSquares) || has_key partial.(Partial.alignImage)
  || has_key partial.(Partial.cropperFrameAriaLabel)
  || has_key partial.(Partial.checkImageType).

(** The type of [checkCropperPosition] of [../utils/cropper-position.utils]. *)
Definition Clamp : Type := CropperPosition -> t -> bool -> CropperPosition.

Section Engine.

Variable checkCropperPosition : Clamp.

(** Lines 72 to 92 of [setOptions]: the state they leave and the flag
    [positionPossiblyChanged]. *)
Definition recompute (partial : PartialOptions) (this : t) : t * bool :=
  if (truthy this.(options).(Options.maintainAspectRatio)
        && truthy (get partial.(Partial.aspectRatio)))
     || has_key partial.(Partial.maintainAspectRatio)
  then
    let this := setCropperScaledMinSize this in
    let this := setCropperScaledMaxSize this in
    if truthy this.(options).(Options.maintainAspectRatio)
       && (truthy this.(options).(Options.resetCropOnAspectRatioChange)
           || negb (aspectRatioIsCorrect this))
    then (set_cropper (maxSizeCropperPosition this) this, true)
    else (this, false)
  else
    let '(this, changed) :=
      if truthy (get partial.(Partial.cropperMinWidth))
         || truthy (get partial.(Partial.cropperMinHeight))
      then (setCropperScaledMinSize this, true)
      else (this, false) in
    let '(this, changed) :=
      if truthy (get partial.(Partial.cropperMaxWidth))
         || truthy (get partial.(Partial.cropperMaxHeight))
      then (setCropperScaledMaxSize this, true)
      else (this, changed) in
    if truthy (get partial.(Partial.cropperStaticWidth))
       || truthy (get partial.(Partial.cropperStaticHeight))
    then (this, true)
    else (this, changed).

(** [setOptions], called with an object ([options || {}] is [options]).
    The signal [this.maxSize] is an object too, so [!this.maxSize] is
    false and the early return hangs on the image alone. *)
Definition setOptions (partial : PartialOptions) (this : t) : completion t :=
  let this := set_options (merge this.(options) partial) this in
  match validateOptions this with
  | Some e => Throw e this
  | None =>
      if negb (truthy (imageComplete this)) then Normal this
      else
        let '(this, positionPossiblyChanged) := recompute partial this in
        if positionPossiblyChanged
        then Normal (set_cropper (checkCropperPosition this.(cropper) this false) this)
        else Normal this
  end.

(** [setOptionsFromChanges].  Every option name is a key of [this.options]
    from the field initialiser on, so the filter keeps exactly the entries
    named after an option; an exception of the first [setOptions] ends the
    call. *)
Definition setOptionsFromChanges (changes : SimpleChanges) (this : t) : completion t :=
  let first :=
    match changes.(optionsChange) with
    | Some currentValue => setOptions currentValue this
    | None => Normal this
    end in
  match first with
  | Throw e this => Throw e this
  | Normal this =>
      let options := changes.(optionChanges) in
      if has_keys options then setOptions options this else Normal this
  end.

End Engine.

End CropperState.

(* ================================================================== *)
(** * Predicates the statements below use *)
(* ================================================================== *)

(** A subtype the pattern takes after [image/]: one of the ten plain
    names, or [vnd], any character, [microsoft], any character, [icon]. *)
Definition acceptedSubtype (sub : string) : Prop :=
  In sub LoadImageService.plainSubtypes
  \/ exists c d, RegExp.line_terminator c = false
              /\ RegExp.line_terminator d = false
              /\ sub = ("vnd" ++ String c ("microsoft" ++ String d "icon"))%string.

(** The declared type has, somewhere inside, [image/] and an accepted
    subtype in exactly this spelling. *)
Definition containsImageType (type : string) : Prop :=
  exists pre sub post,
    type = (pre ++ ("image/" ++ sub) ++ post)%string /\ acceptedSubtype sub.

(** The fields a recomputation of the scaled sizes leaves alone. *)
Definition same_inputs (a b : CropperState.t) : Prop :=
  a.(CropperState.cropper) = b.(CropperState.cropper)
  /\ a.(CropperState.loadedImage) = b.(CropperState.loadedImage)
  /\ a.(CropperState.maxSize) = b.(CropperState.maxSize)
  /\ a.(CropperState.transform) = b.(CropperState.transform)
  /\ a.(CropperState.options) = b.(CropperState.options)
  /\ a.(CropperState.stepSize) = b.(CropperState.stepSize).

(** The state a call leaves the object in, however it ends. *)
Definition state_after {S} (outcome : completion S) : S :=
  match outcome with
  | Normal this => this
  | Throw _ this => this
  end.

(** Some answers of the host make the promise resolve with [a]. *)
Fixpoint resolves {A} (p : Promise A) (a : A) : Prop :=
  match p with
  | Resolved a' => a' = a
  | Rejected _ => False
  | Await op k => exists x, resolves (k x) a
  end.

(** Some answers of the host make the promise reject with [e]. *)
Fixpoint rejects {A} (p : Promise A) (e : Error) : Prop :=
  match p with
  | Resolved _ => False
  | Rejected e' => e' = e
  | Await op k => exists x, rejects (k x) e
  end.

(** Reading the root element of an SVG document. *)
Definition queryingSvg (X : Type) (op : Host X) : Prop :=
  match op with
  | QuerySvgElement _ => True
  | _ => False
  end.

(** [Number.isFinite]: neither [NaN] nor an infinity. *)
Definition isFinite (x : number) : bool := is_finite x.

(** [parts.join(sep)] *)
Fixpoint join (sep : ascii) (parts : list string) : string :=
  match parts with
  | [] => EmptyString
  | [part] => part
  | part :: rest => (part ++ String sep (join sep rest))%string
  end.

(** The string has the character [c] in it. *)
Fixpoint contains_char (c : ascii) (s : string) : bool :=
  match s with
  | EmptyString => false
  | String a s' => (a =? c)%char || contains_char c s'
  end.

(** How often the character [c] is in the string. *)
Fixpoint count_char (c : ascii) (s : string) : nat :=
  match s with
  | EmptyString => 0
  | String a s' => (if (a =? c)%char then 1 else 0) + count_char c s'
  end.

(** An [ImageTransform] with every absent property at the value the
    comparisons take for it. *)
Definition withDefaults (transform : ImageTransform) : ImageTransform :=
  {| scale := Some (transform.(scale) ?? 1%float);
     transformRotate := Some (transform.(transformRotate) ?? 0%float);
     flipH := Some (transform.(flipH) ?? false);
     flipV := Some (transform.(flipV) ?? false);
     translateH := Some (transform.(translateH) ?? 0%float);
     translateV := Some (transform.(translateV) ?? 0%float) |}.

(** The errors the service rejects with. *)
Definition serviceErrors : list Error :=
  [ LoadImageService.InvalidImageTypeError;
    ErrorObject "Failed to parse SVG image";
    ErrorObject
      "Failed to load SVG image. SVG must have width + height or viewBox definition.";
    ErrorEvent;
    ErrorObject "No image loaded";
    ErrorObject "Failed to get Blob for transformed image." ].

(** Sample values for the examples below. *)
Module Sample.

Local Open Scope float_scope.

Definition bitmap (w h : number) : HTMLImageElement :=
  {| src := "blob:original"; complete := true;
     naturalWidth := w; naturalHeight := h;
     elementWidth := w; elementHeight := h |}.

Definition variant (w h : number) : ImageVariant :=
  {| objectUrl := "blob:original"; image := bitmap w h;
     size := {| width := w; height := h |} |}.

(** An upright image of [w] by [h] pixels, yet to be transformed. *)
Definition decoded (w h : number) : LoadImageService.PartialImage.t :=
  {| LoadImageService.PartialImage.original := variant w h;
     LoadImageService.PartialImage.transformed := None;
     LoadImageService.PartialImage.exifTransform := {| rotate := 0; flip := false |} |}.

(** An image of [w] by [h] pixels loaded without any transform. *)
Definition loaded (w h : number) : LoadedImage :=
  {| original := variant w h; transformed := variant w h;
     exifTransform := {| rotate := 0; flip := false |} |}.

(** Load options that set [canvasRotation] and leave the rest out. *)
Definition rotated (quarterTurns : Z) : LoadImageOptions :=
  LoadOptions.Build_t None None (Some quarterTurns) None None.

(** Load options with [checkImageType] on. *)
Definition checked : LoadImageOptions :=
  LoadOptions.Build_t None (Some true) None None None.

Definition noExifData (_ : Z + ArrayBufferLike) : ExifTransform :=
  {| rotate := 0; flip := false |}.

Definition notANumber (_ : string) : number := nan.

Definition fileOfType (type : string) : File :=
  {| fileType := type; fileBytes := [] |}.

(** An update that writes [maintainAspectRatio], [aspectRatio],
    [resizeToWidth] and [cropperMinWidth] as given and has no other key. *)
Definition update (maintain : property bool) (ratio resize minWidth : property number)
    : PartialOptions :=
  Partial.Build_t Missing Missing Missing maintain ratio Missing resize Missing
    minWidth Missing Missing Missing Missing Missing Missing Missing
    Missing Missing Missing Missing Missing Missing Missing Missing.

(** A clamping collaborator that finds every rectangle in order. *)
Definition keep (position : CropperPosition) (_ : CropperState.t) (_ : bool)
    : CropperPosition := position.

(** The engine once an image of 100 by 100 pixels is shown at 200 by 200,
    with the crop rectangle at [{50, 50, 150, 150}]. *)
Definition ready : CropperState.t :=
  CropperState.set_cropper {| x1 := 50; y1 := 50; x2 := 150; y2 := 150 |}
    (CropperState.setMaxSize 200 200
       (CropperState.set_loadedImage (Some (loaded 100 100)) CropperState.new)).

(** The update [{aspectRatio: 0, maintainAspectRatio: true}]. *)
Definition zeroRatio : PartialOptions :=
  update (Key (Some true)) (Key (Some 0)) Missing Missing.

(** The update [{aspectRatio: -1, maintainAspectRatio: true}]. *)
Definition negativeRatio : PartialOptions :=
  update (Key (Some true)) (Key (Some (-1))) Missing Missing.

(** The update [{resizeToWidth: 256}]. *)
Definition resizeOnly : PartialOptions :=
  update Missing Missing (Key (Some 256)) Missing.

(** The update [{aspectRatio: 2}]. *)
Definition doubleRatio : PartialOptions :=
  update Missing (Key (Some 2)) Missing Missing.

(** The update [{aspectRatio: undefined}]. *)
Definition undefinedRatio : PartialOptions :=
  update Missing (Key None) Missing Missing.

(** An engine showing an image of 1000 by 800 pixels at 500 by 400 with
    [aspectRatio] 1.91, the quotient of 191 by 100. *)
Definition wideRatio : CropperState.t :=
  CropperState.set_maxSize {| width := 500; height := 400 |}
    (CropperState.set_options
       (merge CropperState.defaultOptions
          (update Missing (Key (Some (191 / 100))) Missing Missing))
       (CropperState.set_loadedImage (Some (loaded 1000 800)) CropperState.new)).

(** The update [{aspectRatio: 3}]. *)
Definition tripleRatio : PartialOptions :=
  update Missing (Key (Some 3)) Missing Missing.

(** The update [{cropperMinWidth: 30}]. *)
Definition minWidthOnly : PartialOptions :=
  update Missing Missing Missing (Key (Some 30)).

(** Changes that carry an [options] object with [aspectRatio] 2 and, as a
    single input, [aspectRatio] 3. *)
Definition overridingChanges : CropperState.SimpleChanges :=
  {| CropperState.optionsChange := Some doubleRatio;
     CropperState.optionChanges := tripleRatio;
     CropperState.otherChanges := ["imageFile"%string] |}.

(** Changes whose [options] object has the ratio 0 and whose single input
    sets it to 3. *)
Definition mendingChanges : CropperState.SimpleChanges :=
  {| CropperState.optionsChange := Some zeroRatio;
     CropperState.optionChanges := tripleRatio;
     CropperState.otherChanges := [] |}.

(** The ready engine after the host reported a size that is not a
    number. *)
Definition unmeasured : CropperState.t :=
  CropperState.set_maxSize {| width := nan; height := nan |} ready.

(** A root element without width and height whose [viewBox] separates
    its numbers by commas. *)
Definition commaViewBox : SvgElement :=
  {| widthAttr := None; heightAttr := None;
     viewBoxAttr := Some "0,0,100,100"%string; viewboxAttr := None |}.

Definition emptyBlob : Blob := {| blobParts := []; blobType := None |}.

(** What [loadImageFromArrayBuffer] hands on for a bitmap of 100 by 200
    pixels that is, or is not, complete. *)
Definition fetched (isComplete : bool) : LoadImageService.LoadImageArrayBuffer :=
  {| LoadImageService.originalImage :=
       {| src := "blob:original"; complete := isComplete;
          naturalWidth := 100; naturalHeight := 200;
          elementWidth := 100; elementHeight := 200 |};
     LoadImageService.originalArrayBuffer := [];
     LoadImageService.originalObjectUrl := "blob:original";
     LoadImageService.originalImageSize := None |}.

(** Load options that contain the image in the given aspect ratio. *)
Definition contained (ratio : number) : LoadImageOptions :=
  LoadOptions.Build_t None None None (Some ratio) (Some true).

End Sample.

(* ================================================================== *)
(** * Facts about numbers *)
(* ================================================================== *)

Section NumberFacts.

Local Open Scope float_scope.

(** The comparison of the IEEE specification, turned around. *)
Lemma SFcompare_swap (a b : spec_float) :
  SFcompare b a = option_map CompOpp (SFcompare a b).
Proof.
  destruct a as [sa| sa | |sa ma ea], b as [sb|sb| |sb mb eb]; simpl;
    try reflexivity;
    try (destruct sa; reflexivity);
    try (destruct sb; reflexivity);
    try (destruct sa, sb; reflexivity).
  destruct sa, sb; try reflexivity;
    rewrite (Z.compare_antisym ea eb);
    destruct (ea ?= eb)%Z; simpl; try reflexivity;
    rewrite (ZC4 mb ma); reflexivity.
Qed.

Lemma SFcompare_refl (a : spec_float) :
  a <> S754_nan -> SFcompare a a = Some Eq.
Proof.
  destruct a as [s|s| |s m e]; simpl; intros Ha; try congruence.
  - destruct s; reflexivity.
  - rewrite Z.compare_refl.
    assert (Pos.compare_cont Eq m m = Eq) as -> by apply Pos.compare_cont_refl.
    destruct s; reflexivity.
Qed.

Lemma is_nan_spec (x : number) : is_nan x = false <-> Prim2SF x <> S754_nan.
Proof.
  unfold is_nan. rewrite eqb_spec. unfold SFeqb. split.
  - intros H E. rewrite E in H. discriminate.
  - intros H. now rewrite SFcompare_refl.
Qed.

Lemma SFcompare_defined (a b : spec_float) :
  a <> S754_nan -> b <> S754_nan -> exists c, SFcompare a b = Some c.
Proof.
  destruct a, b; simpl; intros; try congruence; eauto.
Qed.

(** A comparison that holds has no [NaN] on either side. *)
Lemma ltb_not_nan (a b : number) :
  (a <? b) = true -> is_nan a = false /\ is_nan b = false.
Proof.
  rewrite ltb_spec, !is_nan_spec. unfold SFltb.
  destruct (Prim2SF a), (Prim2SF b); simpl; intros H; try discriminate;
    split; congruence.
Qed.

Lemma ltb_leb (a b : number) : (a <? b) = true -> (a <=? b) = true.
Proof.
  rewrite ltb_spec, leb_spec. unfold SFltb, SFleb.
  destruct (SFcompare _ _) as [[]|]; congruence.
Qed.

Lemma eqb_leb (a b : number) : (a =? b) = true -> (a <=? b) = true.
Proof.
  rewrite eqb_spec, leb_spec. unfold SFeqb, SFleb.
  destruct (SFcompare _ _) as [[]|]; congruence.
Qed.

Lemma leb_refl (a : number) : is_nan a = false -> (a <=? a) = true.
Proof.
  intros H. apply eqb_leb. unfold is_nan in H.
  now destruct (a =? a).
Qed.

(** Two numbers neither of which is below the other are equal. *)
Lemma not_ltb_eqb (a b : number) :
  is_nan a = false -> is_nan b = false ->
  (a <? b) = false -> (b <? a) = false -> (a =? b) = true.
Proof.
  rewrite !is_nan_spec, !ltb_spec, eqb_spec. unfold SFltb, SFeqb.
  intros Ha Hb. rewrite (SFcompare_swap (Prim2SF a) (Prim2SF b)).
  destruct (SFcompare_defined Ha Hb) as [c ->].
  destruct c; simpl; congruence.
Qed.

Lemma Math_max_nan_r (a b : number) : is_nan b = true -> Math_max a b = nan.
Proof.
  intros H. unfold Math_max. rewrite H, orb_true_r. reflexivity.
Qed.

(** [Math.max] is at least its first argument, unless it is [NaN]. *)
Lemma Math_max_lower_bound (a b : number) :
  is_nan a = false -> is_nan b = false -> (a <=? Math_max a b) = true.
Proof.
  intros Ha Hb. unfold Math_max. rewrite Ha, Hb. simpl.
  destruct (a <? b) eqn:Hab.
  - now apply ltb_leb.
  - destruct (b <? a) eqn:Hba.
    + now apply leb_refl.
    + destruct (is_negative_zero a).
      * apply eqb_leb. now apply not_ltb_eqb.
      * now apply leb_refl.
Qed.

Lemma Math_max_not_nan (a b : number) :
  is_nan a = false -> is_nan b = false -> is_nan (Math_max a b) = false.
Proof.
  intros Ha Hb. unfold Math_max. rewrite Ha, Hb. simpl.
  destruct (a <? b); [assumption|].
  destruct (b <? a); [assumption|].
  now destruct (is_negative_zero a).
Qed.

(** On numbers, [Math.max] is one of its arguments and bounds both. *)
Lemma Math_max_is_max (a b : number) :
  is_nan a = false -> is_nan b = false ->
  (a <=? Math_max a b) = true /\ (b <=? Math_max a b) = true
  /\ (Math_max a b = a \/ Math_max a b = b).
Proof.
  intros Ha Hb. split; [now apply Math_max_lower_bound|].
  unfold Math_max. rewrite Ha, Hb. simpl.
  destruct (a <? b) eqn:Hab; [split; [now apply leb_refl | now right]|].
  destruct (b <? a) eqn:Hba; [split; [now apply ltb_leb | now left]|].
  destruct (is_negative_zero a).
  - split; [now apply leb_refl | now right].
  - split; [|now left]. apply eqb_leb. now apply not_ltb_eqb.
Qed.

(** [n % 2] is truthy exactly for the odd integers, of either sign. *)
Lemma rem2_truthy (n : Z) : truthy (rem2 n) = Z.odd n.
Proof.
  unfold truthy, integer_ToBoolean, rem2.
  destruct (Z.leb_spec 0 n) as [Hn|Hn].
  - rewrite Z.rem_mod_nonneg by lia. rewrite Zmod_odd.
    now destruct (Z.odd n).
  - replace n with (- - n)%Z at 1 by lia.
    rewrite Z.rem_opp_l' , Z.rem_mod_nonneg by lia.
    rewrite Zmod_odd, Z.odd_opp.
    now destruct (Z.odd n).
Qed.

End NumberFacts.

(* ================================================================== *)
(** * Facts about the pattern matcher *)
(* ================================================================== *)

Module RegExpFacts.
Import RegExp.

Local Open Scope string_scope.

Lemma append_eq_nil (u v : string) : u ++ v = "" -> u = "" /\ v = "".
Proof. destruct u; simpl; intros H; [auto | discriminate]. Qed.

(** How a string that starts with [c] splits in two. *)
Lemma append_eq_cons (u v : string) c w :
  u ++ v = String c w ->
  (u = "" /\ v = String c w) \/ (exists u', u = String c u' /\ w = u' ++ v).
Proof.
  destruct u as [|a u']; simpl; intros H.
  - now left.
  - injection H as -> <-. right. now exists u'.
Qed.

Lemma matches_Cat_inv r s w :
  matches (Cat r s) w <-> exists u v, w = u ++ v /\ matches r u /\ matches s v.
Proof.
  split.
  - inversion 1; subst. do 2 eexists. repeat split; eassumption.
  - intros (u & v & -> & Hu & Hv). now constructor.
Qed.

Lemma matches_Dot_inv w :
  matches Dot w <-> exists c, line_terminator c = false /\ w = String c "".
Proof.
  split.
  - inversion 1; subst. eauto.
  - intros (c & Hc & ->). now constructor.
Qed.

Lemma nullable_matches r : nullable r = true <-> matches r "".
Proof.
  induction r as [ | | c | | r IHr s IHs | r IHr s IHs]; simpl.
  - split; [discriminate | inversion 1].
  - split; [constructor | reflexivity].
  - split; [discriminate | inversion 1].
  - split; [discriminate | inversion 1].
  - rewrite andb_true_iff, IHr, IHs. split.
    + intros [Hr Hs]. change "" with ("" ++ ""). now constructor.
    + intros H. apply matches_Cat_inv in H. destruct H as (u & v & Heq & Hu & Hv).
      symmetry in Heq. destruct (append_eq_nil _ _ Heq) as [-> ->]. now split.
  - rewrite orb_true_iff, IHr, IHs. split.
    + intros [H|H]; [now apply matches_Alt_l | now apply matches_Alt_r].
    + inversion 1; subst; auto.
Qed.

Lemma derivative_matches c r : forall u,
  matches (derivative c r) u <-> matches r (String c u).
Proof.
  induction r as [ | | a | | r IHr s IHs | r IHr s IHs]; intros u; simpl.
  - split; inversion 1.
  - split; inversion 1.
  - destruct (Ascii.eqb_spec a c) as [->|Hac]; split; inversion 1; subst.
    + constructor.
    + constructor.
    + congruence.
  - destruct (line_terminator c) eqn:Hc; split; inversion 1; subst.
    + congruence.
    + now constructor.
    + constructor.
  - assert (Hcat : matches (Cat (derivative c r) s) u -> matches (Cat r s) (String c u)).
    { intros H. apply matches_Cat_inv in H. destruct H as (u1 & v & -> & Hu & Hv).
      apply IHr in Hu. change (String c (u1 ++ v)) with (String c u1 ++ v).
      now constructor. }
    assert (Hsplit : matches (Cat r s) (String c u) ->
              matches (Cat (derivative c r) s) u
              \/ (matches r "" /\ matches (derivative c s) u)).
    { intros H. apply matches_Cat_inv in H. destruct H as (u1 & v & Heq & Hu & Hv).
      symmetry in Heq. destruct (append_eq_cons _ _ Heq) as [[-> ->] | (u' & -> & ->)].
      - right. split; [assumption | now apply IHs].
      - left. constructor; [now apply IHr | assumption]. }
    destruct (nullable r) eqn:Hn.
    + split.
      * inversion 1; subst; [now apply Hcat|].
        change (String c u) with ("" ++ String c u).
        constructor; [now apply nullable_matches | now apply IHs].
      * intros H. destruct (Hsplit H) as [H' | [_ H']];
          [now apply matches_Alt_l | now apply matches_Alt_r].
    + split; [exact Hcat|].
      intros H. destruct (Hsplit H) as [H' | [H' _]]; [assumption|].
      apply nullable_matches in H'. congruence.
  - split; inversion 1; subst;
      solve [ apply matches_Alt_l; now apply IHr
            | apply matches_Alt_r; now apply IHs ].
Qed.

Lemma match_at_start_spec s : forall r,
  match_at_start r s = true <-> exists u v, s = u ++ v /\ matches r u.
Proof.
  induction s as [|c s IH]; intros r; simpl; rewrite orb_true_iff.
  - rewrite nullable_matches. split.
    + intros [H|H]; [|discriminate]. now exists "", "".
    + intros (u & v & Heq & H). left.
      symmetry in Heq. destruct (append_eq_nil _ _ Heq) as [-> _]. assumption.
  - rewrite nullable_matches, IH. split.
    + intros [H | (u & v & -> & H)].
      * now exists "", (String c s).
      * exists (String c u), v. split; [reflexivity | now apply derivative_matches].
    + intros (u & v & Heq & H). symmetry in Heq.
      destruct (append_eq_cons _ _ Heq) as [[-> _] | (u' & -> & ->)].
      * now left.
      * right. exists u', v. split; [reflexivity | now apply derivative_matches].
Qed.

(** [test] finds a match wherever it starts. *)
Lemma test_spec s : forall r,
  test r s = true <-> exists pre u post, s = pre ++ u ++ post /\ matches r u.
Proof.
  induction s as [|c s IH]; intros r; simpl; rewrite orb_true_iff.
  - split.
    + intros [H|H]; [|discriminate].
      apply (match_at_start_spec "") in H. destruct H as (u & v & Heq & H).
      now exists "", u, v.
    + intros (pre & u & post & Heq & H). left.
      apply (match_at_start_spec ""). symmetry in Heq.
      destruct (append_eq_nil _ _ Heq) as [-> Heq'].
      exists u, post. now split.
  - rewrite IH. split.
    + intros [H | (pre & u & post & -> & H)].
      * apply (match_at_start_spec (String c s)) in H.
        destruct H as (u & v & Heq & H). now exists "", u, v.
      * now exists (String c pre), u, post.
    + intros (pre & u & post & Heq & H).
      destruct pre as [|a pre]; simpl in Heq.
      * left. apply (match_at_start_spec (String c s)). now exists u, post.
      * injection Heq as -> ->. right. now exists pre, u, post.
Qed.

Lemma matches_literal l : forall u, matches (literal l) u <-> u = l.
Proof.
  induction l as [|c l IH]; intros u; simpl.
  - split; [now inversion 1 | intros ->; constructor].
  - split.
    + intros H. apply matches_Cat_inv in H. destruct H as (u1 & v & -> & Hu & Hv).
      inversion Hu; subst. apply IH in Hv. now subst.
    + intros ->. change (String c l) with (String c "" ++ l).
      constructor; [constructor | now apply IH].
Qed.

Lemma matches_alternatives rs : forall u,
  matches (alternatives rs) u <-> exists r, In r rs /\ matches r u.
Proof.
  induction rs as [|r rs IH]; intros u; simpl.
  - split; [inversion 1 | intros (r & [] & _)].
  - split.
    + inversion 1; subst.
      * exists r. auto.
      * apply IH in H3. destruct H3 as (r' & Hin & Hr'). exists r'. auto.
    + intros (r' & [<- | Hin] & Hr').
      * now apply matches_Alt_l.
      * apply matches_Alt_r, IH. now exists r'.
Qed.

End RegExpFacts.

(* ================================================================== *)
(** * The image loading pipeline: what it guarantees *)
(* ================================================================== *)

Section LoadImageFacts.
Import LoadImageService.

Local Open Scope string_scope.

Lemma iconSubtype_matches sub :
  RegExp.matches iconSubtype sub <->
  exists c d, RegExp.line_terminator c = false
           /\ RegExp.line_terminator d = false
           /\ sub = "vnd" ++ String c ("microsoft" ++ String d "icon").
Proof.
  unfold iconSubtype. split.
  - intros H.
    apply RegExpFacts.matches_Cat_inv in H. destruct H as (u1 & v1 & -> & H1 & H).
    apply RegExpFacts.matches_literal in H1. subst u1.
    apply RegExpFacts.matches_Cat_inv in H. destruct H as (u2 & v2 & -> & H2 & H).
    apply RegExpFacts.matches_Dot_inv in H2. destruct H2 as (c & Hc & ->).
    apply RegExpFacts.matches_Cat_inv in H. destruct H as (u3 & v3 & -> & H3 & H).
    apply RegExpFacts.matches_literal in H3. subst u3.
    apply RegExpFacts.matches_Cat_inv in H. destruct H as (u4 & v4 & -> & H4 & H).
    apply RegExpFacts.matches_Dot_inv in H4. destruct H4 as (d & Hd & ->).
    apply RegExpFacts.matches_literal in H. subst v4.
    now exists c, d.
  - intros (c & d & Hc & Hd & ->).
    constructor; [now apply RegExpFacts.matches_literal|].
    change (String c ("microsoft" ++ String d "icon"))
      with (String c "" ++ ("microsoft" ++ (String d "" ++ "icon"))).
    constructor; [now constructor|].
    constructor; [now apply RegExpFacts.matches_literal|].
    constructor; [now constructor | now apply RegExpFacts.matches_literal].
Qed.

Lemma imageTypePattern_matches u :
  RegExp.matches imageTypePattern u <->
  exists sub, u = "image/" ++ sub /\ acceptedSubtype sub.
Proof.
  unfold imageTypePattern, acceptedSubtype.
  rewrite RegExpFacts.matches_Cat_inv. split.
  - intros (u1 & v & -> & H1 & H).
    apply RegExpFacts.matches_literal in H1. subst u1.
    exists v. split; [reflexivity|].
    apply RegExpFacts.matches_alternatives in H. destruct H as (r & Hin & Hr).
    apply in_app_or in Hin. destruct Hin as [Hin | [<- | []]].
    + left. apply in_map_iff in Hin. destruct Hin as (name & <- & Hname).
      apply RegExpFacts.matches_literal in Hr. now subst.
    + right. now apply iconSubtype_matches.
  - intros (sub & -> & H). exists "image/", sub.
    split; [reflexivity|]. split; [now apply RegExpFacts.matches_literal|].
    apply RegExpFacts.matches_alternatives. destruct H as [Hin | H].
    + exists (RegExp.literal sub). split.
      * apply in_or_app. left. now apply in_map.
      * now apply RegExpFacts.matches_literal.
    + exists iconSubtype. split.
      * apply in_or_app. right. now left.
      * now apply iconSubtype_matches.
Qed.

(** What [isValidImageType] decides. *)
Lemma isValidImageType_spec (type : string) :
  isValidImageType type = true <-> containsImageType type.
Proof.
  unfold isValidImageType, containsImageType. rewrite RegExpFacts.test_spec. split.
  - intros (pre & u & post & -> & H).
    apply imageTypePattern_matches in H. destruct H as (sub & -> & Hsub).
    now exists pre, sub, post.
  - intros (pre & sub & post & -> & Hsub).
    exists pre, ("image/" ++ sub), post. split; [reflexivity|].
    apply imageTypePattern_matches. now exists sub.
Qed.

Lemma isValidImageType_false (type : string) :
  isValidImageType type = false <-> ~ containsImageType type.
Proof.
  rewrite <- isValidImageType_spec. destruct (isValidImageType type); split;
    congruence.
Qed.

End LoadImageFacts.

Section LoadImageClaims.
Import LoadImageService.

Local Open Scope float_scope.



(** The branch that renders nothing hands the original on as the
    transformed variant: same object URL, same bitmap, same size. *)
Lemma reuseOriginal_transformed (loadedImage : PartialImage.t) :
  transformed (reuseOriginal loadedImage) = loadedImage.(PartialImage.original)
  /\ original (reuseOriginal loadedImage) = loadedImage.(PartialImage.original).
Proof.
  destruct loadedImage as [[url img sz] tr exif]. split; reflexivity.
Qed.


End LoadImageClaims.

Section LoadImageExamples.
Import LoadImageService.






(** Nor is the match tied to the start of the type: the pattern has no
    anchor, and its dots stand for any character. *)
Lemma inner_image_type_accepted :
  isValidImageType "text/x-image/png" = true
  /\ isValidImageType "image/vnd-microsoft-icon" = true
  /\ isValidImageType "image/avif" = false.
Proof. repeat split; reflexivity. Qed.

End LoadImageExamples.

(* ================================================================== *)
(** * The cropper state: what its methods change *)
(* ================================================================== *)

Section CropperStateFacts.
Import CropperState.

Local Open Scope float_scope.

(** Case analysis on every test a method makes. *)
Ltac each_branch :=
  repeat match goal with
         | |- context [match ?x with _ => _ end] => destruct x
         end.

Lemma setCropperScaledMinSize_frame (this : t) :
  same_inputs (setCropperScaledMinSize this) this
  /\ (setCropperScaledMinSize this).(cropperScaledMaxWidth) = this.(cropperScaledMaxWidth)
  /\ (setCropperScaledMinSize this).(cropperScaledMaxHeight) = this.(cropperScaledMaxHeight).
Proof.
  unfold same_inputs, setCropperScaledMinSize, setCropperScaledMinHeight,
    setCropperScaledMinWidth.
  destruct this as [position [loaded|] ? ? ? ? ? ? ? ?]; simpl;
    each_branch; repeat split; reflexivity.
Qed.

Lemma setCropperScaledMaxSize_frame (this : t) :
  same_inputs (setCropperScaledMaxSize this) this
  /\ (setCropperScaledMaxSize this).(cropperScaledMinWidth) = this.(cropperScaledMinWidth)
  /\ (setCropperScaledMaxSize this).(cropperScaledMinHeight) = this.(cropperScaledMinHeight).
Proof.
  unfold same_inputs, setCropperScaledMaxSize.
  destruct this as [position [loaded|] ? ? ? ? ? ? ? ?]; simpl;
    each_branch; repeat split; reflexivity.
Qed.

(** Both recomputations in a row, as [setOptions] and [setMaxSize] run them. *)
Lemma rescaled_frame (this : t) :
  same_inputs (setCropperScaledMaxSize (setCropperScaledMinSize this)) this.
Proof.
  destruct (setCropperScaledMaxSize_frame (setCropperScaledMinSize this))
    as [(H1 & H2 & H3 & H4 & H5 & H6) _].
  destruct (setCropperScaledMinSize_frame this) as [(G1 & G2 & G3 & G4 & G5 & G6) _].
  unfold same_inputs. repeat split; congruence.
Qed.

(** [validateOptions] throws exactly on a truthy [maintainAspectRatio]
    with a falsy [aspectRatio]: [0], [NaN] or [undefined]. *)
Lemma validateOptions_spec (this : t) :
  (validateOptions this = Some ConfigurationError <->
     truthy this.(options).(Options.maintainAspectRatio) = true
     /\ truthy this.(options).(Options.aspectRatio) = false)
  /\ (validateOptions this = None <->
     ~ (truthy this.(options).(Options.maintainAspectRatio) = true
        /\ truthy this.(options).(Options.aspectRatio) = false)).
Proof.
  unfold validateOptions.
  destruct (truthy this.(options).(Options.maintainAspectRatio));
    destruct (truthy this.(options).(Options.aspectRatio)); simpl;
    intuition congruence.
Qed.

(** A number below zero is truthy. *)
Lemma negative_truthy (x : number) : (x <? 0) = true -> truthy x = true.
Proof.
  intros H. unfold truthy, number_ToBoolean.
  destruct (ltb_not_nan H) as [-> _].
  rewrite ltb_spec in H. rewrite eqb_spec. unfold SFltb in H. unfold SFeqb.
  destruct (SFcompare (Prim2SF x) (Prim2SF 0)) as [[]|]; try discriminate.
  reflexivity.
Qed.

End CropperStateFacts.

Section SetOptionsClaims.
Import CropperState.

Local Open Scope float_scope.

(** Lines 72 to 92 of [setOptions] never write the options, the image or
    [maxSize]. *)
Lemma recompute_frame (partial : PartialOptions) (this : t) :
  (fst (recompute partial this)).(options) = this.(options)
  /\ (fst (recompute partial this)).(loadedImage) = this.(loadedImage)
  /\ (fst (recompute partial this)).(maxSize) = this.(maxSize).
Proof.
  destruct (rescaled_frame this) as (R1 & R2 & R3 & R4 & R5 & R6).
  destruct (setCropperScaledMinSize_frame this) as [(M1 & M2 & M3 & M4 & M5 & M6) _].
  destruct (setCropperScaledMaxSize_frame this) as [(X1 & X2 & X3 & X4 & X5 & X6) _].
  destruct (setCropperScaledMaxSize_frame (setCropperScaledMinSize this))
    as [(Y1 & Y2 & Y3 & Y4 & Y5 & Y6) _].
  unfold recompute.
  repeat match goal with
         | |- context [if ?b then _ else _] => destruct b
         end; simpl; repeat split; congruence.
Qed.

(** Two numbers that compare unequal are different values. *)
Lemma number_neq (a b : number) :
  (a =? b) = false -> is_nan a = false -> a <> b.
Proof.
  intros H Ha ->. unfold is_nan in Ha. rewrite H in Ha. discriminate.
Qed.

(** C3, as the code has it.  When the merged options have
    [maintainAspectRatio] truthy and [aspectRatio] zero, [NaN] or absent,
    [setOptions] throws the configuration error after the merge: the
    options are the merged ones, while the cropper position, [maxSize], the
    image and the four scaled sizes are as before the call. *)
Theorem setOptions_throws_after_merge
    (checkCropperPosition : Clamp) (partial : PartialOptions) (this : t) :
  let merged := merge this.(options) partial in
  truthy merged.(Options.maintainAspectRatio) = true ->
  truthy merged.(Options.aspectRatio) = false ->
  exists after,
    setOptions checkCropperPosition partial this = Throw ConfigurationError after
    /\ after.(options) = merged
    /\ after.(cropper) = this.(cropper)
    /\ after.(maxSize) = this.(maxSize)
    /\ after.(loadedImage) = this.(loadedImage)
    /\ after.(cropperScaledMinWidth) = this.(cropperScaledMinWidth)
    /\ after.(cropperScaledMinHeight) = this.(cropperScaledMinHeight)
    /\ after.(cropperScaledMaxWidth) = this.(cropperScaledMaxWidth)
    /\ after.(cropperScaledMaxHeight) = this.(cropperScaledMaxHeight).
Proof.
  intros merged Hmaintain Hratio.
  exists (set_options merged this). split; [|repeat split; reflexivity].
  unfold setOptions. fold merged.
  destruct (validateOptions_spec (set_options merged this)) as [[_ Hthrow] _].
  rewrite Hthrow; [reflexivity|]. simpl. now split.
Qed.

(** C4, where the code parts from its own error message.  A strictly
    negative [aspectRatio] with [maintainAspectRatio] on passes
    [validateOptions]: [setOptions] returns and keeps the merged options. *)
Theorem setOptions_accepts_negative_aspectRatio
    (checkCropperPosition : Clamp) (partial : PartialOptions) (this : t)
    (ar : number) :
  let merged := merge this.(options) partial in
  truthy merged.(Options.maintainAspectRatio) = true ->
  merged.(Options.aspectRatio) = Some ar ->
  (ar <? 0) = true ->
  exists after,
    setOptions checkCropperPosition partial this = Normal after
    /\ after.(options) = merged.
Proof.
  intros merged Hmaintain Hratio Hneg.
  unfold setOptions. fold merged.
  destruct (validateOptions_spec (set_options merged this)) as [_ [_ Hpass]].
  rewrite Hpass.
  - destruct (negb (truthy (imageComplete (set_options merged this)))).
    + eexists. split; reflexivity.
    + destruct (recompute_frame partial (set_options merged this)) as (Ho & _ & _).
      destruct (recompute partial (set_options merged this)) as [next changed].
      simpl in Ho. destruct changed; eexists; (split; [reflexivity | exact Ho]).
  - intros [_ Hfalsy]. cbn [set_options options] in Hfalsy.
    rewrite Hratio in Hfalsy.
    change (truthy ar = false) in Hfalsy.
    rewrite (negative_truthy Hneg) in Hfalsy. discriminate.
Qed.

(** C10.  In a state with a loaded image, a [setOptions] call that passes
    validation and whose update has no [maintainAspectRatio] key, no truthy
    [aspectRatio] while [maintainAspectRatio] is on, and no truthy
    [cropperMinWidth], [cropperMinHeight], [cropperMaxWidth],
    [cropperMaxHeight], [cropperStaticWidth] or [cropperStaticHeight],
    changes the options and nothing else: the cropper position and the four
    scaled sizes stay. *)
Theorem setOptions_frame
    (checkCropperPosition : Clamp) (partial : PartialOptions) (this : t) :
  let merged := merge this.(options) partial in
  truthy (imageComplete this) = true ->
  validateOptions (set_options merged this) = None ->
  has_key partial.(Partial.maintainAspectRatio) = false ->
  truthy merged.(Options.maintainAspectRatio)
    && truthy (get partial.(Partial.aspectRatio)) = false ->
  truthy (get partial.(Partial.cropperMinWidth)) = false ->
  truthy (get partial.(Partial.cropperMinHeight)) = false ->
  truthy (get partial.(Partial.cropperMaxWidth)) = false ->
  truthy (get partial.(Partial.cropperMaxHeight)) = false ->
  truthy (get partial.(Partial.cropperStaticWidth)) = false ->
  truthy (get partial.(Partial.cropperStaticHeight)) = false ->
  exists after,
    setOptions checkCropperPosition partial this = Normal after
    /\ after = set_options merged this
    /\ after.(cropper) = this.(cropper)
    /\ after.(cropperScaledMinWidth) = this.(cropperScaledMinWidth)
    /\ after.(cropperScaledMinHeight) = this.(cropperScaledMinHeight)
    /\ after.(cropperScaledMaxWidth) = this.(cropperScaledMaxWidth)
    /\ after.(cropperScaledMaxHeight) = this.(cropperScaledMaxHeight).
Proof.
  intros merged Hready Hvalid Hkey Hratio Hminw Hminh Hmaxw Hmaxh Hstw Hsth.
  exists (set_options merged this). split; [|repeat split; reflexivity].
  unfold setOptions. fold merged. rewrite Hvalid.
  change (imageComplete (set_options merged this)) with (imageComplete this).
  rewrite Hready. cbn [negb].
  unfold recompute. cbn [set_options options].
  rewrite Hkey, Hratio, Hminw, Hminh, Hmaxw, Hmaxh, Hstw, Hsth.
  reflexivity.
Qed.


End SetOptionsClaims.

Section ScaledSizeClaims.
Import CropperState.

Local Open Scope float_scope.

(** [Math.max(20, x)] is a number only if [x] is one. *)
Lemma Math_max_20_nan (x : number) : is_nan (Math_max 20 x) = is_nan x.
Proof.
  destruct (is_nan x) eqn:Hx.
  - now rewrite Math_max_nan_r.
  - now apply Math_max_not_nan.
Qed.

(** The floor of 20, for every operand that is a number. *)
Lemma Math_max_20_floor (x : number) :
  is_nan (Math_max 20 x) = false -> (20 <=? Math_max 20 x) = true.
Proof.
  rewrite Math_max_20_nan. intros Hx.
  now apply Math_max_lower_bound.
Qed.

Lemma floor_or_20 (configured : bool) (x : number) :
  is_nan (if configured then Math_max 20 x else 20) = false ->
  (20 <=? (if configured then Math_max 20 x else 20)) = true.
Proof.
  destruct configured; [apply Math_max_20_floor | reflexivity].
Qed.

(** C6, as the code has it.  [setMaxSize(w, h)] replaces [maxSize] and
    recomputes the scaled minimum and maximum sizes; it leaves the cropper
    position as it is.  The position is rescaled by
    [resizeCropperPosition(oldMaxSize)], which the host calls next: when
    the size differs from the old one in width or height, to
    [{x1 * w / oldW, y1 * h / oldH, x2 * w / oldW, y2 * h / oldH}], and
    not at all when both are as before. *)
Theorem setMaxSize_then_resizeCropperPosition (w h : number) (this : t) :
  let oldMaxSize := this.(maxSize) in
  let position := this.(cropper) in
  let resized := setMaxSize w h this in
  resized.(maxSize) = {| width := w; height := h |}
  /\ resized
     = setCropperScaledMaxSize
         (setCropperScaledMinSize (set_maxSize {| width := w; height := h |} this))
  /\ resized.(cropper) = position
  /\ (strict_neq oldMaxSize.(width) w || strict_neq oldMaxSize.(height) h = true ->
      (resizeCropperPosition oldMaxSize resized).(cropper)
      = {| x1 := position.(x1) * w / oldMaxSize.(width);
           y1 := position.(y1) * h / oldMaxSize.(height);
           x2 := position.(x2) * w / oldMaxSize.(width);
           y2 := position.(y2) * h / oldMaxSize.(height) |})
  /\ (strict_neq oldMaxSize.(width) w || strict_neq oldMaxSize.(height) h = false ->
      (resizeCropperPosition oldMaxSize resized).(cropper) = position).
Proof.
  intros oldMaxSize position resized.
  destruct (rescaled_frame (set_maxSize {| width := w; height := h |} this))
    as (Hcropper & _ & Hmax & _).
  change (setCropperScaledMaxSize
            (setCropperScaledMinSize (set_maxSize {| width := w; height := h |} this)))
    with resized in Hcropper, Hmax.
  cbn [set_maxSize cropper maxSize] in Hcropper, Hmax. fold position in Hcropper.
  split; [exact Hmax|]. split; [reflexivity|]. split; [exact Hcropper|].
  unfold resizeCropperPosition. rewrite Hmax, Hcropper. cbn [width height].
  split; intros ->; [reflexivity | exact Hcropper].
Qed.

(** C7, as the code has it.  With an image loaded, [scaledMinWidth] is
    [max(20, cropperMinWidth / transformedSize.width * maxSize.width)]
    when [cropperMinWidth > 0] and 20 otherwise; [scaledMinHeight] is
    [max(20, scaledMinWidth / aspectRatio)] when [maintainAspectRatio] is
    on, else the same formula on [cropperMinHeight] when that is [> 0],
    else 20.  Without an image both are 20.  Each of them is at least 20
    whenever it is a number; it is [NaN] when the scaled operand is. *)
Theorem setCropperScaledMinSize_formula (this : t) :
  let scaled := setCropperScaledMinSize this in
  let o := this.(options) in
  (forall loaded, this.(loadedImage) = Some loaded ->
     scaled.(cropperScaledMinWidth)
     = (if gt (ToNumber o.(Options.cropperMinWidth)) 0
        then Math_max 20 (ToNumber o.(Options.cropperMinWidth)
                            / loaded.(transformed).(size).(width)
                            * this.(maxSize).(width))
        else 20)
     /\ scaled.(cropperScaledMinHeight)
        = (if truthy o.(Options.maintainAspectRatio)
           then Math_max 20 (scaled.(cropperScaledMinWidth)
                               / ToNumber o.(Options.aspectRatio))
           else if gt (ToNumber o.(Options.cropperMinHeight)) 0
           then Math_max 20 (ToNumber o.(Options.cropperMinHeight)
                               / loaded.(transformed).(size).(height)
                               * this.(maxSize).(height))
           else 20))
  /\ (this.(loadedImage) = None ->
      scaled.(cropperScaledMinWidth) = 20 /\ scaled.(cropperScaledMinHeight) = 20)
  /\ (is_nan scaled.(cropperScaledMinWidth) = false ->
      (20 <=? scaled.(cropperScaledMinWidth)) = true)
  /\ (is_nan scaled.(cropperScaledMinHeight) = false ->
      (20 <=? scaled.(cropperScaledMinHeight)) = true).
Proof.
  intros scaled o.
  assert (Hformula : forall loaded, this.(loadedImage) = Some loaded ->
     scaled.(cropperScaledMinWidth)
     = (if gt (ToNumber o.(Options.cropperMinWidth)) 0
        then Math_max 20 (ToNumber o.(Options.cropperMinWidth)
                            / loaded.(transformed).(size).(width)
                            * this.(maxSize).(width))
        else 20)
     /\ scaled.(cropperScaledMinHeight)
        = (if truthy o.(Options.maintainAspectRatio)
           then Math_max 20 (scaled.(cropperScaledMinWidth)
                               / ToNumber o.(Options.aspectRatio))
           else if gt (ToNumber o.(Options.cropperMinHeight)) 0
           then Math_max 20 (ToNumber o.(Options.cropperMinHeight)
                               / loaded.(transformed).(size).(height)
                               * this.(maxSize).(height))
           else 20)).
  { intros loaded Hloaded. subst scaled o.
    unfold setCropperScaledMinSize. rewrite Hloaded.
    unfold setCropperScaledMinHeight, setCropperScaledMinWidth.
    cbn [set_cropperScaledMinWidth options maxSize cropperScaledMinWidth].
    destruct (truthy (Options.maintainAspectRatio (options this)));
      [split; reflexivity|].
    destruct (gt (ToNumber (Options.cropperMinHeight (options this))) 0);
      split; reflexivity. }
  assert (Hnone : this.(loadedImage) = None ->
      scaled.(cropperScaledMinWidth) = 20 /\ scaled.(cropperScaledMinHeight) = 20).
  { intros Hnone. subst scaled. unfold setCropperScaledMinSize. rewrite Hnone.
    split; reflexivity. }
  split; [exact Hformula|]. split; [exact Hnone|].
  destruct this.(loadedImage) as [loaded|] eqn:Hloaded.
  - destruct (Hformula loaded eq_refl) as [Hw Hh]. split.
    + rewrite Hw. apply floor_or_20.
    + rewrite Hh. destruct (truthy (Options.maintainAspectRatio o));
        [apply Math_max_20_floor | apply floor_or_20].
  - destruct (Hnone eq_refl) as [-> ->]. split; reflexivity.
Qed.


End ScaledSizeClaims.

(* ================================================================== *)
(** * The cropper state on concrete inputs *)
(* ================================================================== *)

Section CropperStateExamples.
Import CropperState.

Local Open Scope float_scope.

(** C3 on the ready engine: the call throws and the rectangle stays. *)
Lemma setOptions_throws_after_merge_witness :
  exists after,
    setOptions Sample.keep Sample.zeroRatio Sample.ready = Throw ConfigurationError after
    /\ after.(options) = merge Sample.ready.(options) Sample.zeroRatio
    /\ after.(cropper) = {| x1 := 50; y1 := 50; x2 := 150; y2 := 150 |}.
Proof.
  destruct (setOptions_throws_after_merge Sample.keep Sample.zeroRatio Sample.ready
              eq_refl eq_refl) as (after & Hthrow & Hoptions & Hcropper & _).
  exists after. repeat split; assumption.
Defined.

(** C3 as stated fails: after the failed call the options are not the
    prior ones.  The ratio that was 1 is now the rejected 0. *)
Lemma setOptions_failure_keeps_merged_options :
  exists after,
    setOptions Sample.keep Sample.zeroRatio new = Throw ConfigurationError after
    /\ new.(options).(Options.aspectRatio) = Some 1
    /\ after.(options).(Options.aspectRatio) = Some 0
    /\ after.(options) <> new.(options).
Proof.
  eexists. split; [reflexivity|]. split; [reflexivity|]. split; [reflexivity|].
  intros Heq.
  apply (f_equal (fun o => ToNumber o.(Options.aspectRatio))) in Heq.
  revert Heq. now apply number_neq.
Qed.

(** C4 at [aspectRatio = -1] on a fresh engine: no error is thrown. *)
Lemma setOptions_accepts_negative_aspectRatio_witness :
  exists after,
    setOptions Sample.keep Sample.negativeRatio new = Normal after
    /\ after.(options).(Options.aspectRatio) = Some (-1).
Proof.
  destruct (setOptions_accepts_negative_aspectRatio Sample.keep Sample.negativeRatio new
              (ar := -1) eq_refl eq_refl eq_refl) as (after & Hreturn & Hoptions).
  exists after. split; [assumption|]. now rewrite Hoptions.
Defined.

(** C10 on the ready engine: only the options change. *)
Lemma setOptions_frame_witness :
  exists after,
    setOptions Sample.keep Sample.resizeOnly Sample.ready = Normal after
    /\ after.(options).(Options.resizeToWidth) = Some 256
    /\ after.(cropper) = {| x1 := 50; y1 := 50; x2 := 150; y2 := 150 |}
    /\ after.(cropperScaledMinWidth) = 20
    /\ after.(cropperScaledMinHeight) = 20
    /\ after.(cropperScaledMaxWidth) = 200
    /\ after.(cropperScaledMaxHeight) = 200.
Proof.
  destruct (setOptions_frame Sample.keep Sample.resizeOnly Sample.ready
              eq_refl eq_refl eq_refl eq_refl eq_refl eq_refl eq_refl eq_refl
              eq_refl eq_refl)
    as (after & Hreturn & Hafter & Hcropper & Hminw & Hminh & Hmaxw & Hmaxh).
  exists after. split; [assumption|]. split; [now rewrite Hafter|].
  repeat split; assumption.
Defined.


(** C6 on the ready engine: after [setMaxSize(400, 200)] the host's
    [resizeCropperPosition({200, 200})] doubles the x coordinates. *)
Lemma setMaxSize_then_resizeCropperPosition_witness :
  (resizeCropperPosition {| width := 200; height := 200 |}
     (setMaxSize 400 200 Sample.ready)).(cropper)
  = {| x1 := 100; y1 := 50; x2 := 300; y2 := 150 |}.
Proof.
  exact (proj1 (proj2 (proj2 (proj2
           (setMaxSize_then_resizeCropperPosition 400 200 Sample.ready))))
         eq_refl).
Defined.

(** C6 as stated fails: [setMaxSize] by itself does not move the
    rectangle. *)
Lemma setMaxSize_leaves_position :
  Sample.ready.(maxSize) = {| width := 200; height := 200 |}
  /\ (setMaxSize 400 200 Sample.ready).(cropper)
     = {| x1 := 50; y1 := 50; x2 := 150; y2 := 150 |}
  /\ (setMaxSize 400 200 Sample.ready).(cropper)
     <> {| x1 := 100; y1 := 50; x2 := 300; y2 := 150 |}.
Proof.
  split; [reflexivity|]. split; [reflexivity|].
  intros Heq. apply (f_equal x1) in Heq.
  revert Heq. now apply number_neq.
Qed.

(** C7 as stated fails: once a rejected update has left [aspectRatio]
    undefined, the next [setMaxSize] computes a scaled minimum height of
    [NaN], which is not at least 20. *)
Lemma scaled_min_height_not_a_number :
  exists rejected,
    setOptions Sample.keep Sample.undefinedRatio Sample.ready
      = Throw ConfigurationError rejected
    /\ is_nan (setMaxSize 300 300 rejected).(cropperScaledMinHeight) = true
    /\ (20 <=? (setMaxSize 300 300 rejected).(cropperScaledMinHeight)) = false.
Proof.
  eexists. split; [reflexivity|]. split; reflexivity.
Qed.

(** C7 on the ready engine with [cropperMinWidth = 30]: shown at twice the
    natural size, the scaled minimum is 60 by 60. *)
Lemma setCropperScaledMinSize_formula_witness :
  let this := set_options
                (merge defaultOptions
                   (Sample.update Missing Missing Missing (Key (Some 30))))
                Sample.ready in
  (setCropperScaledMinSize this).(cropperScaledMinWidth) = 60
  /\ (setCropperScaledMinSize this).(cropperScaledMinHeight) = 60
  /\ (20 <=? (setCropperScaledMinSize this).(cropperScaledMinWidth)) = true.
Proof.
  intros this.
  destruct (setCropperScaledMinSize_formula this) as (Hformula & _ & Hfloor & _).
  destruct (Hformula (Sample.loaded 100 100) eq_refl) as [Hw Hh].
  split; [exact Hw|]. split; [exact Hh|]. exact (Hfloor eq_refl).
Defined.



End CropperStateExamples.

(* ================================================================== *)
(** * More about the cropper state *)
(* ================================================================== *)

Section CropperStateMore.
Import CropperState.

Local Open Scope float_scope.

(** The setters and projections of the state, unfolded. *)
Ltac fields :=
  cbv beta iota zeta delta
    [set_cropper set_maxSize set_options set_loadedImage
     set_cropperScaledMinWidth set_cropperScaledMinHeight
     set_cropperScaledMaxWidth set_cropperScaledMaxHeight
     cropper loadedImage maxSize transform options stepSize
     cropperScaledMinWidth cropperScaledMinHeight
     cropperScaledMaxWidth cropperScaledMaxHeight].

(** Case analysis on every test a method makes, innermost first. *)
Ltac each_test :=
  fields;
  repeat match goal with
         | H : ?b = _ |- context [if ?b then _ else _] => rewrite H; fields
         | |- context [if ?b then _ else _] =>
             lazymatch b with
             | context [if _ then _ else _] => fail
             | _ => lazymatch type of b with bool => destruct b eqn:? end
             end; fields
         end.

Lemma set_options_same (this : t) : set_options this.(options) this = this.
Proof. now destruct this. Qed.

Lemma spread_twice {A} (target : option A) (source : property A) :
  spread (spread target source) source = spread target source.
Proof. now destruct source. Qed.

Lemma merge_empty (o : CropperOptions) : merge o Partial.empty = o.
Proof. now destruct o. Qed.

(** An update without keys writes nothing. *)
Lemma merge_no_keys (o : CropperOptions) (partial : PartialOptions) :
  has_keys partial = false -> merge o partial = o.
Proof.
  unfold has_keys. rewrite !orb_false_iff.
  destruct partial; cbn [Partial.format Partial.output Partial.autoCrop
    Partial.maintainAspectRatio Partial.aspectRatio
    Partial.resetCropOnAspectRatioChange Partial.resizeToWidth
    Partial.resizeToHeight Partial.cropperMinWidth Partial.cropperMinHeight
    Partial.cropperMaxHeight Partial.cropperMaxWidth Partial.cropperStaticWidth
    Partial.cropperStaticHeight Partial.canvasRotation Partial.roundCropper
    Partial.onlyScaleDown Partial.imageQuality Partial.backgroundColor
    Partial.containWithinAspectRatio Partial.hideResizeSquares Partial.alignImage
    Partial.cropperFrameAriaLabel Partial.checkImageType].
  intros H.
  repeat match goal with
         | H : _ /\ _ |- _ => destruct H
         | H : has_key ?p = false |- _ => destruct p; [clear H | discriminate H]
         end.
  now destruct o.
Qed.

(** X1.  Object spread is idempotent: merging the same update a second
    time leaves the options as the first merge made them; and merging the
    empty object changes nothing. *)
Theorem merge_same_update_twice (o : CropperOptions) (partial : PartialOptions) :
  merge (merge o partial) partial = merge o partial
  /\ merge o Partial.empty = o.
Proof.
  split; [|apply merge_empty].
  unfold merge. cbn [Options.format Options.output Options.autoCrop
    Options.maintainAspectRatio Options.aspectRatio
    Options.resetCropOnAspectRatioChange Options.resizeToWidth
    Options.resizeToHeight Options.cropperMinWidth Options.cropperMinHeight
    Options.cropperMaxHeight Options.cropperMaxWidth Options.cropperStaticWidth
    Options.cropperStaticHeight Options.canvasRotation Options.roundCropper
    Options.onlyScaleDown Options.imageQuality Options.backgroundColor
    Options.containWithinAspectRatio Options.hideResizeSquares Options.alignImage
    Options.cropperFrameAriaLabel Options.checkImageType].
  now rewrite !spread_twice.
Qed.

(** Lines 72 to 92 of [setOptions] write nothing but the position and the
    scaled sizes. *)
Lemma recompute_same_inputs (partial : PartialOptions) (this : t) :
  (fst (recompute partial this)).(options) = this.(options)
  /\ (fst (recompute partial this)).(loadedImage) = this.(loadedImage)
  /\ (fst (recompute partial this)).(maxSize) = this.(maxSize)
  /\ (fst (recompute partial this)).(transform) = this.(transform)
  /\ (fst (recompute partial this)).(stepSize) = this.(stepSize).
Proof.
  destruct (rescaled_frame this) as (R1 & R2 & R3 & R4 & R5 & R6).
  destruct (setCropperScaledMinSize_frame this) as [(M1 & M2 & M3 & M4 & M5 & M6) _].
  destruct (setCropperScaledMaxSize_frame this) as [(X1 & X2 & X3 & X4 & X5 & X6) _].
  destruct (setCropperScaledMaxSize_frame (setCropperScaledMinSize this))
    as [(Y1 & Y2 & Y3 & Y4 & Y5 & Y6) _].
  unfold recompute.
  repeat match goal with
         | |- context [if ?b then _ else _] => destruct b
         end; simpl; repeat split; congruence.
Qed.

(** What every outcome of [setOptions] has in common. *)
Lemma setOptions_effect
    (checkCropperPosition : Clamp) (partial : PartialOptions) (this : t) :
  let after := state_after (setOptions checkCropperPosition partial this) in
  after.(options) = merge this.(options) partial
  /\ after.(loadedImage) = this.(loadedImage)
  /\ after.(maxSize) = this.(maxSize)
  /\ after.(transform) = this.(transform)
  /\ after.(stepSize) = this.(stepSize).
Proof.
  intros after. subst after. unfold setOptions.
  set (merged := set_options (merge this.(options) partial) this).
  destruct (validateOptions merged); [repeat split; reflexivity|].
  destruct (negb (truthy (imageComplete merged))); [repeat split; reflexivity|].
  destruct (recompute_same_inputs partial merged) as (H1 & H2 & H3 & H4 & H5).
  destruct (recompute partial merged) as [next changed]. cbn [fst] in *.
  destruct changed; cbn [state_after set_cropper options loadedImage maxSize
                         transform stepSize];
    repeat split; assumption.
Qed.

(** X2.  However [setOptions] ends, by returning or by throwing, it
    leaves the merged options in the state and never touches the loaded
    image, [maxSize], the transform or the step size. *)
Theorem setOptions_writes_merged_options
    (checkCropperPosition : Clamp) (partial : PartialOptions) (this : t) :
  forall after,
    (setOptions checkCropperPosition partial this = Normal after
     \/ exists e, setOptions checkCropperPosition partial this = Throw e after) ->
    after.(options) = merge this.(options) partial
    /\ after.(loadedImage) = this.(loadedImage)
    /\ after.(maxSize) = this.(maxSize)
    /\ after.(transform) = this.(transform)
    /\ after.(stepSize) = this.(stepSize).
Proof.
  intros after Houtcome.
  pose proof (setOptions_effect checkCropperPosition partial this) as Heffect.
  cbv zeta in Heffect.
  destruct Houtcome as [Heq | [e Heq]]; rewrite Heq in Heffect; exact Heffect.
Qed.

(** X3.  [setOptions] throws exactly when the merged options have
    [maintainAspectRatio] truthy and [aspectRatio] falsy; the error is
    always the configuration error, and the state it leaves is the prior
    one with the merged options. *)
Theorem setOptions_throws_iff
    (checkCropperPosition : Clamp) (partial : PartialOptions) (this : t) :
  let merged := merge this.(options) partial in
  ((exists e after, setOptions checkCropperPosition partial this = Throw e after)
   <-> truthy merged.(Options.maintainAspectRatio) = true
       /\ truthy merged.(Options.aspectRatio) = false)
  /\ (forall e after,
        setOptions checkCropperPosition partial this = Throw e after ->
        e = ConfigurationError /\ after = set_options merged this).
Proof.
  intros merged.
  unfold setOptions. fold merged.
  unfold validateOptions. cbn [set_options options].
  destruct (truthy (Options.maintainAspectRatio merged)
            && negb (truthy (Options.aspectRatio merged))) eqn:Hcheck.
  - apply andb_true_iff in Hcheck. destruct Hcheck as [Hm Hr].
    apply negb_true_iff in Hr. split.
    + split; [intros _; now split | intros _; eauto].
    + intros e after Heq. injection Heq as <- <-. now split.
  - assert (Hnormal : exists after,
              (if negb (truthy (imageComplete (set_options merged this)))
               then Normal (set_options merged this)
               else let '(next, changed) := recompute partial (set_options merged this) in
                    if changed
                    then Normal (set_cropper
                                   (checkCropperPosition next.(cropper) next false) next)
                    else Normal next) = Normal after).
    { destruct (negb (truthy (imageComplete (set_options merged this))));
        [eexists; reflexivity|].
      destruct (recompute partial (set_options merged this)) as [next []];
        eexists; reflexivity. }
    destruct Hnormal as (after & ->). split.
    + split; [intros (e & s & Heq); discriminate | intros [Hm Hr]].
      rewrite Hm, Hr in Hcheck. discriminate.
    + intros e s Heq. discriminate.
Qed.

(** X4.  While no complete image is loaded, a [setOptions] call that
    passes validation changes the options and nothing else, whatever the
    update holds: no scaled size is recomputed and [checkCropperPosition]
    is not called. *)
Theorem setOptions_without_complete_image
    (checkCropperPosition : Clamp) (partial : PartialOptions) (this : t) :
  truthy (imageComplete this) = false ->
  validateOptions (set_options (merge this.(options) partial) this) = None ->
  setOptions checkCropperPosition partial this
  = Normal (set_options (merge this.(options) partial) this).
Proof.
  intros Himage Hvalid. unfold setOptions. rewrite Hvalid.
  change (imageComplete (set_options (merge (options this) partial) this))
    with (imageComplete this).
  now rewrite Himage.
Qed.

(** X5.  [setOptions({})] is a check and nothing more: it throws if the
    current options are invalid and returns otherwise, and either way the
    state is exactly as before. *)
Theorem setOptions_empty_update (checkCropperPosition : Clamp) (this : t) :
  setOptions checkCropperPosition Partial.empty this
  = match validateOptions this with
    | Some e => Throw e this
    | None => Normal this
    end.
Proof.
  unfold setOptions. rewrite merge_empty, set_options_same.
  destruct (validateOptions this); [reflexivity|].
  destruct (negb (truthy (imageComplete this))); [reflexivity|].
  unfold recompute. cbn. now rewrite andb_false_r.
Qed.

(** Recomputing the minima after the maxima or before gives one state. *)
Lemma recomputations_swap (this : t) :
  setCropperScaledMaxSize (setCropperScaledMinSize this)
  = setCropperScaledMinSize (setCropperScaledMaxSize this).
Proof.
  unfold setCropperScaledMaxSize, setCropperScaledMinSize,
    setCropperScaledMinHeight, setCropperScaledMinWidth.
  destruct this as [position [loaded|] ? ? ? ? ? ? ? ?];
    each_test; reflexivity.
Qed.

(** X6.  With a complete image, an update that passes validation and
    touches neither [maintainAspectRatio] nor, while that is on,
    [aspectRatio]: the scaled minima are recomputed only for a truthy
    [cropperMinWidth] or [cropperMinHeight], the scaled maxima only for a
    truthy [cropperMaxWidth] or [cropperMaxHeight], and the position goes
    through [checkCropperPosition] if either happened or a static size is
    truthy; otherwise each stays as it was. *)
Theorem setOptions_size_update
    (checkCropperPosition : Clamp) (partial : PartialOptions) (this : t) :
  let merged := set_options (merge this.(options) partial) this in
  let minChanged := truthy (get partial.(Partial.cropperMinWidth))
                    || truthy (get partial.(Partial.cropperMinHeight)) in
  let maxChanged := truthy (get partial.(Partial.cropperMaxWidth))
                    || truthy (get partial.(Partial.cropperMaxHeight)) in
  let staticChanged := truthy (get partial.(Partial.cropperStaticWidth))
                       || truthy (get partial.(Partial.cropperStaticHeight)) in
  truthy (imageComplete this) = true ->
  validateOptions merged = None ->
  has_key partial.(Partial.maintainAspectRatio) = false ->
  truthy merged.(options).(Options.maintainAspectRatio)
    && truthy (get partial.(Partial.aspectRatio)) = false ->
  exists after,
    setOptions checkCropperPosition partial this = Normal after
    /\ (after.(cropperScaledMinWidth), after.(cropperScaledMinHeight))
       = (if minChanged
          then ((setCropperScaledMinSize merged).(cropperScaledMinWidth),
                (setCropperScaledMinSize merged).(cropperScaledMinHeight))
          else (this.(cropperScaledMinWidth), this.(cropperScaledMinHeight)))
    /\ (after.(cropperScaledMaxWidth), after.(cropperScaledMaxHeight))
       = (if maxChanged
          then ((setCropperScaledMaxSize merged).(cropperScaledMaxWidth),
                (setCropperScaledMaxSize merged).(cropperScaledMaxHeight))
          else (this.(cropperScaledMaxWidth), this.(cropperScaledMaxHeight)))
    /\ (minChanged || maxChanged || staticChanged = false ->
        after.(cropper) = this.(cropper))
    /\ (minChanged || maxChanged || staticChanged = true ->
        exists before,
          before.(cropper) = this.(cropper)
          /\ after.(cropper) = checkCropperPosition this.(cropper) before false).
Proof.
  intros merged minChanged maxChanged staticChanged Hready Hvalid Hkey Hratio.
  unfold setOptions. fold merged. rewrite Hvalid.
  change (imageComplete merged) with (imageComplete this).
  rewrite Hready. cbn [negb].
  unfold recompute. rewrite Hkey, Hratio. cbn [orb].
  fold minChanged. fold maxChanged. fold staticChanged.
  destruct (setCropperScaledMinSize_frame merged)
    as [(M1 & _) (M2 & M3)].
  destruct (setCropperScaledMaxSize_frame merged)
    as [(X1 & _) (X2 & X3)].
  destruct (setCropperScaledMaxSize_frame (setCropperScaledMinSize merged))
    as [(Y1 & _) (Y2 & Y3)].
  destruct (setCropperScaledMinSize_frame (setCropperScaledMaxSize merged))
    as [_ (Z2 & Z3)].
  rewrite <- (recomputations_swap merged) in Z2, Z3.
  change (cropper merged) with (cropper this) in *.
  change (cropperScaledMinWidth merged) with (cropperScaledMinWidth this) in *.
  change (cropperScaledMinHeight merged) with (cropperScaledMinHeight this) in *.
  change (cropperScaledMaxWidth merged) with (cropperScaledMaxWidth this) in *.
  change (cropperScaledMaxHeight merged) with (cropperScaledMaxHeight this) in *.
  destruct minChanged, maxChanged, staticChanged; cbn [orb];
    eexists; (split; [reflexivity|]);
    cbn [set_cropper cropper cropperScaledMinWidth cropperScaledMinHeight
         cropperScaledMaxWidth cropperScaledMaxHeight];
    (split; [rewrite ?Y2, ?Y3, ?X2, ?X3; reflexivity|]);
    (split; [rewrite ?Z2, ?Z3, ?M2, ?M3; reflexivity|]);
    (split; [intros H; try discriminate H; reflexivity|]);
    intros H; try discriminate H;
    eexists; (split; [|rewrite ?Y1, ?M1, ?X1; reflexivity]);
    rewrite ?Y1, ?M1, ?X1; reflexivity.
Qed.

(** The recomputed scaled sizes are a function of the options, the image
    and [maxSize]: states that agree on those come out the same. *)
Lemma rescaled_from_inputs (a b : t) :
  same_inputs a b ->
  setCropperScaledMaxSize (setCropperScaledMinSize a)
  = setCropperScaledMaxSize (setCropperScaledMinSize b).
Proof.
  unfold same_inputs.
  destruct a as [ca la ma ta oa ? ? ? ? sa], b as [cb lb mb tb ob ? ? ? ? sb].
  cbn [cropper loadedImage maxSize transform options stepSize].
  intros (-> & -> & -> & -> & -> & ->).
  unfold setCropperScaledMaxSize, setCropperScaledMinSize,
    setCropperScaledMinHeight, setCropperScaledMinWidth.
  destruct lb as [loaded|]; each_test; reflexivity.
Qed.

(** X7.  [setMaxSize] depends on nothing an earlier [setMaxSize] wrote:
    two calls in a row leave the state the last one alone would. *)
Theorem setMaxSize_last_call_wins (w h w' h' : number) (this : t) :
  setMaxSize w h (setMaxSize w' h' this) = setMaxSize w h this.
Proof.
  unfold setMaxSize. apply rescaled_from_inputs.
  destruct (rescaled_frame (set_maxSize {| width := w'; height := h' |} this))
    as (H1 & H2 & H3 & H4 & H5 & H6).
  unfold same_inputs.
  cbn [set_maxSize cropper loadedImage maxSize transform options stepSize] in *.
  repeat split; assumption.
Qed.

(** Each recomputation is a function of the inputs and leaves the other
    pair of scaled sizes as it finds it. *)
Lemma scaled_min_from_inputs (a b : t) :
  same_inputs a b ->
  a.(cropperScaledMaxWidth) = b.(cropperScaledMaxWidth) ->
  a.(cropperScaledMaxHeight) = b.(cropperScaledMaxHeight) ->
  setCropperScaledMinSize a = setCropperScaledMinSize b.
Proof.
  unfold same_inputs.
  destruct a as [ca la ma ta oa ? ? ? ? sa], b as [cb lb mb tb ob ? ? ? ? sb].
  cbn [cropper loadedImage maxSize transform options stepSize
       cropperScaledMaxWidth cropperScaledMaxHeight].
  intros (-> & -> & -> & -> & -> & ->) -> ->.
  unfold setCropperScaledMinSize, setCropperScaledMinHeight, setCropperScaledMinWidth.
  destruct lb as [loaded|]; each_test; reflexivity.
Qed.

Lemma scaled_max_from_inputs (a b : t) :
  same_inputs a b ->
  a.(cropperScaledMinWidth) = b.(cropperScaledMinWidth) ->
  a.(cropperScaledMinHeight) = b.(cropperScaledMinHeight) ->
  setCropperScaledMaxSize a = setCropperScaledMaxSize b.
Proof.
  unfold same_inputs.
  destruct a as [ca la ma ta oa ? ? ? ? sa], b as [cb lb mb tb ob ? ? ? ? sb].
  cbn [cropper loadedImage maxSize transform options stepSize
       cropperScaledMinWidth cropperScaledMinHeight].
  intros (-> & -> & -> & -> & -> & ->) -> ->.
  unfold setCropperScaledMaxSize.
  destruct lb as [loaded|]; each_test; reflexivity.
Qed.

(** X8.  The two recomputations of the scaled sizes do not depend on each
    other: they commute, and running either twice is running it once. *)
Theorem scaled_size_recomputations_commute (this : t) :
  setCropperScaledMinSize (setCropperScaledMaxSize this)
  = setCropperScaledMaxSize (setCropperScaledMinSize this)
  /\ setCropperScaledMinSize (setCropperScaledMinSize this)
     = setCropperScaledMinSize this
  /\ setCropperScaledMaxSize (setCropperScaledMaxSize this)
     = setCropperScaledMaxSize this.
Proof.
  split; [symmetry; apply recomputations_swap|].
  destruct (setCropperScaledMinSize_frame this) as (Hmin & Hw & Hh).
  destruct (setCropperScaledMaxSize_frame this) as (Hmax & Hw' & Hh').
  split.
  - now apply scaled_min_from_inputs.
  - now apply scaled_max_from_inputs.
Qed.

(** X9.  Without a loaded image [setMaxSize(w, h)] sets the scaled minima
    to 20 by 20 and the scaled maxima to [w] by [h], whatever the options
    say: neither the configured sizes nor [aspectRatio] come into it. *)
Theorem setMaxSize_without_image (w h : number) (this : t) :
  this.(loadedImage) = None ->
  let after := setMaxSize w h this in
  after.(cropperScaledMinWidth) = 20 /\ after.(cropperScaledMinHeight) = 20
  /\ after.(cropperScaledMaxWidth) = w /\ after.(cropperScaledMaxHeight) = h.
Proof.
  intros Hnone. unfold setMaxSize, setCropperScaledMaxSize, setCropperScaledMinSize.
  destruct this as [position loaded ? ? ? ? ? ? ? ?]. cbn in Hnone. subst loaded.
  repeat split; reflexivity.
Qed.

(** A number that is [NaN] has the IEEE value [NaN]. *)
Lemma is_nan_true (x : number) : is_nan x = true -> Prim2SF x = S754_nan.
Proof.
  intros H. destruct (Prim2SF x) eqn:E; try reflexivity;
    assert (Hno : is_nan x = false) by (apply is_nan_spec; congruence);
    congruence.
Qed.

Lemma SF_nan_is_nan (x : number) : Prim2SF x = S754_nan -> is_nan x = true.
Proof.
  intros H. destruct (is_nan x) eqn:E; [reflexivity|].
  apply is_nan_spec in E. contradiction.
Qed.

(** [NaN] spreads through products and quotients. *)
Lemma mul_nan_r (a b : number) : is_nan b = true -> is_nan (a * b) = true.
Proof.
  intros H. apply SF_nan_is_nan. rewrite mul_spec, (is_nan_true _ H).
  unfold SF64mul, SFmul. now destruct (Prim2SF a).
Qed.

Lemma div_nan (a b : number) :
  is_nan a = true \/ is_nan b = true -> is_nan (a / b) = true.
Proof.
  intros H. apply SF_nan_is_nan. rewrite div_spec. unfold SF64div, SFdiv.
  destruct H as [H | H]; rewrite (is_nan_true _ H); [reflexivity|].
  now destruct (Prim2SF a).
Qed.

(** A comparison with [NaN] on the left never holds. *)
Lemma eqb_nan_l (a b : number) : is_nan a = true -> (a =? b) = false.
Proof.
  intros H. rewrite eqb_spec, (is_nan_true _ H). reflexivity.
Qed.

Lemma eqb_sym (a b : number) : (a =? b) = (b =? a).
Proof.
  rewrite !eqb_spec. unfold SFeqb.
  rewrite (SFcompare_swap (Prim2SF a) (Prim2SF b)).
  destruct (SFcompare (Prim2SF a) (Prim2SF b)) as [[]|]; reflexivity.
Qed.

(** Whatever is divided by zero, the quotient is not a finite number. *)
Lemma div_by_zero_not_finite (x y : number) :
  (y =? 0) = true -> isFinite (x / y) = false.
Proof.
  intros Hy. rewrite eqb_spec in Hy. unfold SFeqb in Hy.
  change (Prim2SF 0) with (S754_zero false) in Hy.
  assert (Hzero : exists s, Prim2SF y = S754_zero s).
  { destruct (Prim2SF y) as [s|s| |s m e]; cbn in Hy;
      [now exists s | destruct s; discriminate | discriminate
      | destruct s; discriminate]. }
  destruct Hzero as [sy Hzero].
  unfold isFinite, is_finite. apply negb_false_iff, orb_true_iff.
  pose proof (div_spec x y) as Hdiv. rewrite Hzero in Hdiv.
  unfold SF64div, SFdiv in Hdiv.
  destruct (Prim2SF x) as [s|s| |s m e].
  - left. now apply SF_nan_is_nan.
  - right. unfold is_infinity. rewrite eqb_spec, abs_spec, Hdiv. reflexivity.
  - left. now apply SF_nan_is_nan.
  - right. unfold is_infinity. rewrite eqb_spec, abs_spec, Hdiv. reflexivity.
Qed.

(** X10.  [resizeCropperPosition] called with the size the engine already
    has changes nothing, provided that size holds numbers. *)
Theorem resizeCropperPosition_same_size (this : t) :
  is_nan this.(maxSize).(width) = false ->
  is_nan this.(maxSize).(height) = false ->
  resizeCropperPosition this.(maxSize) this = this.
Proof.
  intros Hw Hh. unfold resizeCropperPosition, strict_neq.
  unfold is_nan in Hw, Hh. now rewrite Hw, Hh.
Qed.

(** X11.  If the width of [maxSize] is [NaN], [resizeCropperPosition]
    takes even the unchanged size for a different one ([NaN !== NaN]) and
    turns both x coordinates of the position into [NaN]. *)
Theorem resizeCropperPosition_NaN_width (this : t) :
  is_nan this.(maxSize).(width) = true ->
  let after := resizeCropperPosition this.(maxSize) this in
  is_nan after.(cropper).(x1) = true /\ is_nan after.(cropper).(x2) = true.
Proof.
  intros Hw after. subst after. unfold resizeCropperPosition, strict_neq.
  rewrite (eqb_nan_l _ _ Hw). cbn [negb orb set_cropper cropper x1 x2].
  split; apply div_nan; right; exact Hw.
Qed.

(** X12.  Rescaling from an old size whose width is zero divides by zero:
    whenever the size has changed, neither x coordinate of the rescaled
    position is a finite number; likewise the y coordinates for an old
    height of zero. *)
Theorem resizeCropperPosition_from_zero (oldMaxSize : Dimensions) (this : t) :
  strict_neq oldMaxSize.(width) this.(maxSize).(width)
  || strict_neq oldMaxSize.(height) this.(maxSize).(height) = true ->
  let after := resizeCropperPosition oldMaxSize this in
  ((oldMaxSize.(width) =? 0) = true ->
     isFinite after.(cropper).(x1) = false /\ isFinite after.(cropper).(x2) = false)
  /\ ((oldMaxSize.(height) =? 0) = true ->
     isFinite after.(cropper).(y1) = false /\ isFinite after.(cropper).(y2) = false).
Proof.
  intros Hchanged after. subst after. unfold resizeCropperPosition.
  rewrite Hchanged. cbn [set_cropper cropper x1 x2 y1 y2].
  split; intros Hzero; split; now apply div_by_zero_not_finite.
Qed.

(** X13.  A rectangle whose [(x2 - x1) / (y2 - y1)] is [NaN], as that of
    the initial all-zero rectangle is, has the correct aspect ratio for no
    [aspectRatio] at all. *)
Theorem aspectRatioIsCorrect_NaN_ratio (this : t) :
  let position := this.(cropper) in
  is_nan ((position.(x2) - position.(x1)) / (position.(y2) - position.(y1))) = true ->
  aspectRatioIsCorrect this = false.
Proof.
  intros position Hnan. unfold aspectRatioIsCorrect, strict_eq.
  fold position. now apply eqb_nan_l.
Qed.

(** X14.  [equalsTransform] is symmetric: which of the two transforms is
    the engine's own makes no difference. *)
Theorem equalsTransform_symmetric (a b : t) :
  equalsTransform b.(transform) a = equalsTransform a.(transform) b.
Proof.
  unfold equalsTransform, equalsTransformTranslate, strict_eq.
  rewrite (eqb_sym (translateH (transform a) ?? 0) (translateH (transform b) ?? 0)).
  rewrite (eqb_sym (translateV (transform a) ?? 0) (translateV (transform b) ?? 0)).
  rewrite (eqb_sym (scale (transform a) ?? 1) (scale (transform b) ?? 1)).
  rewrite (eqb_sym (transformRotate (transform a) ?? 0)
                   (transformRotate (transform b) ?? 0)).
  destruct (flipH (transform a) ?? false), (flipH (transform b) ?? false),
    (flipV (transform a) ?? false), (flipV (transform b) ?? false); reflexivity.
Qed.

(** X15.  A property a transform leaves out compares as its default:
    [scale] as 1, [rotate] and both translations as 0, both flips as
    false.  And transforms that are equal have equal translations. *)
Theorem equalsTransform_defaults (transform : ImageTransform) (this : t) :
  equalsTransform (withDefaults transform) this = equalsTransform transform this
  /\ (equalsTransform transform this = true ->
      equalsTransformTranslate transform this = true).
Proof.
  split.
  - unfold equalsTransform, equalsTransformTranslate, withDefaults.
    destruct transform as [[?|] [?|] [?|] [?|] [?|] [?|]]; reflexivity.
  - unfold equalsTransform. rewrite !andb_true_iff. tauto.
Qed.

(** X16.  The engine's transform equals itself exactly when none of its
    scale, rotation and translations is [NaN]. *)
Theorem equalsTransform_reflexive_iff (this : t) :
  equalsTransform this.(transform) this = true
  <-> is_nan (this.(transform).(scale) ?? 1) = false
      /\ is_nan (this.(transform).(transformRotate) ?? 0) = false
      /\ is_nan (this.(transform).(translateH) ?? 0) = false
      /\ is_nan (this.(transform).(translateV) ?? 0) = false.
Proof.
  unfold equalsTransform, equalsTransformTranslate, strict_eq, is_nan.
  rewrite !andb_true_iff, !negb_false_iff, !Bool.eqb_reflx. tauto.
Qed.

(** X17.  [setOptionsFromChanges] applies the [options] object first and
    the single option inputs after it, so a single input overrides the
    same key of the object: when the call returns, the options are the
    prior ones with the object merged in and the single inputs merged on
    top.  It never touches the image or [maxSize]. *)
Theorem setOptionsFromChanges_inputs_override
    (checkCropperPosition : Clamp) (changes : SimpleChanges) (this after : t) :
  setOptionsFromChanges checkCropperPosition changes this = Normal after ->
  let object := match changes.(optionsChange) with
                | Some currentValue => currentValue
                | None => Partial.empty
                end in
  after.(options) = merge (merge this.(options) object) changes.(optionChanges)
  /\ after.(loadedImage) = this.(loadedImage)
  /\ after.(maxSize) = this.(maxSize).
Proof.
  intros Hreturn object. unfold setOptionsFromChanges in Hreturn.
  assert (Hfirst : forall middle,
            match changes.(optionsChange) with
            | Some currentValue => setOptions checkCropperPosition currentValue this
            | None => Normal this
            end = Normal middle ->
            middle.(options) = merge this.(options) object
            /\ middle.(loadedImage) = this.(loadedImage)
            /\ middle.(maxSize) = this.(maxSize)).
  { intros middle Hmiddle. subst object.
    destruct changes.(optionsChange) as [currentValue|].
    - pose proof (setOptions_effect checkCropperPosition currentValue this) as H.
      cbv zeta in H. rewrite Hmiddle in H. cbn [state_after] in H.
      destruct H as (H1 & H2 & H3 & _). now repeat split.
    - injection Hmiddle as <-. rewrite merge_empty. now repeat split. }
  destruct (match changes.(optionsChange) with
            | Some currentValue => setOptions checkCropperPosition currentValue this
            | None => Normal this
            end) as [middle | e middle]; [|discriminate].
  destruct (Hfirst middle eq_refl) as (F1 & F2 & F3).
  destruct (has_keys changes.(optionChanges)) eqn:Hkeys.
  - pose proof (setOptions_effect checkCropperPosition changes.(optionChanges) middle)
      as H.
    cbv zeta in H. rewrite Hreturn in H. cbn [state_after] in H.
    destruct H as (H1 & H2 & H3 & _). rewrite H1, H2, H3, F1, F2, F3.
    now repeat split.
  - injection Hreturn as <-. rewrite (merge_no_keys _ _ Hkeys).
    now repeat split.
Qed.

(** X18.  If the [options] object alone makes the options invalid,
    [setOptionsFromChanges] throws after merging it and never gets to the
    single option inputs, even where those would have mended the
    options. *)
Theorem setOptionsFromChanges_stops_at_first_error
    (checkCropperPosition : Clamp) (changes : SimpleChanges) (this : t)
    (object : PartialOptions) :
  changes.(optionsChange) = Some object ->
  let merged := merge this.(options) object in
  truthy merged.(Options.maintainAspectRatio) = true ->
  truthy merged.(Options.aspectRatio) = false ->
  setOptionsFromChanges checkCropperPosition changes this
  = Throw ConfigurationError (set_options merged this).
Proof.
  intros Hobject merged Hmaintain Hratio.
  unfold setOptionsFromChanges. rewrite Hobject.
  unfold setOptions. fold merged.
  destruct (validateOptions_spec (set_options merged this)) as [[_ Hthrow] _].
  rewrite Hthrow; [reflexivity|]. cbn [set_options options]. now split.
Qed.

End CropperStateMore.

(* ================================================================== *)
(** * More about the image loading pipeline *)
(* ================================================================== *)

Section PromiseFacts.

Lemma resolves_bind {A B} (p : Promise A) (f : A -> Promise B) (b : B) :
  resolves (bind p f) b <-> exists a, resolves p a /\ resolves (f a) b.
Proof.
  induction p as [a | e | X op k IH]; simpl.
  - split; [intros H; now exists a | intros (a' & <- & H); exact H].
  - split; [intros [] | intros (a & [] & _)].
  - split.
    + intros [x H]. apply IH in H. destruct H as (a & Ha & Hb).
      exists a. split; [now exists x | exact Hb].
    + intros (a & [x Ha] & Hb). exists x. apply IH. now exists a.
Qed.

Lemma rejects_bind {A B} (p : Promise A) (f : A -> Promise B) (e : Error) :
  rejects (bind p f) e <-> rejects p e \/ exists a, resolves p a /\ rejects (f a) e.
Proof.
  induction p as [a | e' | X op k IH]; simpl.
  - split; [intros H; right; now exists a | intros [[] | (a' & <- & H)]; exact H].
  - split; [intros H; now left | intros [H | (a & [] & _)]; exact H].
  - split.
    + intros [x H]. apply IH in H. destruct H as [H | (a & Ha & Hb)].
      * left. now exists x.
      * right. exists a. split; [now exists x | exact Hb].
    + intros [[x H] | (a & [x Ha] & Hb)]; exists x; apply IH.
      * now left.
      * right. now exists a.
Qed.

Lemma performs_bind {A B} (P : forall X, Host X -> Prop)
    (p : Promise A) (f : A -> Promise B) :
  performs P (bind p f) <-> performs P p \/ exists a, resolves p a /\ performs P (f a).
Proof.
  induction p as [a | e | X op k IH]; simpl.
  - split; [intros H; right; now exists a | intros [[] | (a' & <- & H)]; exact H].
  - split; [intros [] | intros [[] | (a & [] & _)]].
  - split.
    + intros [H | [x H]]; [now left; left|].
      apply IH in H. destruct H as [H | (a & Ha & Hb)].
      * left. right. now exists x.
      * right. exists a. split; [now exists x | exact Hb].
    + intros [[H | [x H]] | (a & [x Ha] & Hb)].
      * now left.
      * right. exists x. apply IH. now left.
      * right. exists x. apply IH. right. now exists a.
Qed.

Lemma rejects_await {X} (op : Host X) (e : Error) : ~ rejects (await op) e.
Proof. intros [x []]. Qed.

Lemma performs_await {X} (P : forall X, Host X -> Prop) (op : Host X) :
  performs P (await op) <-> P X op.
Proof. simpl. split; [intros [H | [x []]]; exact H | now left]. Qed.

End PromiseFacts.

Section LoadImageMore.
Import LoadImageService.

Local Open Scope float_scope.

(** [Math.max] gives a number only for two numbers. *)
Lemma Math_max_number (a b : number) :
  is_nan (Math_max a b) = false -> is_nan a = false /\ is_nan b = false.
Proof.
  unfold Math_max. destruct (is_nan a || is_nan b) eqn:E.
  - intros H. discriminate H.
  - intros _. now apply orb_false_iff.
Qed.


(** X20.  Without [containWithinAspectRatio] the target size of the
    target size is the original size again: a quarter turn swaps width and
    height, and the second one swaps them back. *)
Theorem getTransformedSize_twice
    (originalSize : Dimensions) (exif : ExifTransform) (options : LoadImageOptions) :
  truthy options.(LoadOptions.containWithinAspectRatio) = false ->
  getTransformedSize (getTransformedSize originalSize exif options) exif options
  = originalSize.
Proof.
  intros Hcontain. unfold getTransformedSize. rewrite Hcontain.
  destruct (truthy (rem2 _)); now destruct originalSize.
Qed.

(** X21.  [containWithinAspectRatio] only ever enlarges the canvas: in
    each dimension in which the contained size is a number, it is at least
    the size the same rotation gives without containing. *)
Theorem getTransformedSize_contains
    (originalSize : Dimensions) (exif : ExifTransform) (options : LoadImageOptions) :
  let plain :=
    getTransformedSize originalSize exif
      (LoadOptions.Build_t options.(LoadOptions.format)
         options.(LoadOptions.checkImageType) options.(LoadOptions.canvasRotation)
         options.(LoadOptions.aspectRatio) None) in
  let contained := getTransformedSize originalSize exif options in
  truthy options.(LoadOptions.containWithinAspectRatio) = true ->
  (is_nan contained.(width) = false -> (plain.(width) <=? contained.(width)) = true)
  /\ (is_nan contained.(height) = false ->
      (plain.(height) <=? contained.(height)) = true).
Proof.
  intros plain contained Hcontain. subst plain contained.
  unfold getTransformedSize. rewrite Hcontain.
  cbn [LoadOptions.containWithinAspectRatio LoadOptions.canvasRotation truthy
       undefined_ToBoolean].
  destruct (truthy (rem2 _)); cbn [width height]; split; intros Hnumber;
    destruct (Math_max_number _ _ Hnumber) as [Ha Hb];
    now apply Math_max_lower_bound.
Qed.

Lemma split_on_not_nil (sep : ascii) (s : string) : split_on sep s <> [].
Proof.
  destruct s as [|c s]; simpl; [discriminate|].
  destruct (c =? sep)%char; [discriminate|].
  destruct (split_on sep s); discriminate.
Qed.

(** [split] loses nothing: joining the parts with the separator gives
    the string back; there is one part more than there are separators in
    the string, and no part holds a separator. *)
Lemma split_on_join (sep : ascii) (s : string) :
  join sep (split_on sep s) = s
  /\ List.length (split_on sep s) = S (count_char sep s)
  /\ Forall (fun part => contains_char sep part = false) (split_on sep s).
Proof.
  induction s as [|c s (IHjoin & IHlength & IHparts)]; simpl.
  - repeat split. now constructor.
  - pose proof (split_on_not_nil sep s) as Hnil.
    destruct (Ascii.eqb_spec c sep) as [-> | Hc].
    + repeat split.
      * destruct (split_on sep s) as [|x xs]; [contradiction|].
        cbn [join]. cbn [join] in IHjoin. now rewrite IHjoin.
      * simpl. now rewrite IHlength.
      * now constructor.
    + destruct (split_on sep s) as [|x xs]; [contradiction|]. repeat split.
      * cbn [join] in *. destruct xs as [|y ys].
        -- now rewrite IHjoin.
        -- simpl. simpl in IHjoin. now rewrite IHjoin.
      * exact IHlength.
      * inversion IHparts as [|? ? Hx Hxs]; subst. constructor; [|exact Hxs].
        simpl. rewrite Hx. apply orb_false_iff. split; [|reflexivity].
        now apply Ascii.eqb_neq.
Qed.

(** X22.  A [viewBox] with fewer than three spaces, such as one that
    separates its numbers by commas, does not fail the load: without a
    usable width and height attribute [getSvgImageSize] resolves with a
    size whose height is [NaN], and whose width is [NaN] too if there are
    fewer than two spaces. *)
Theorem getSvgImageSize_short_viewBox
    (StringToNumber : string -> number) (blob : Blob)
    (svgElement : SvgElement) (attr : string) :
  truthy svgElement.(widthAttr) && truthy svgElement.(heightAttr) = false ->
  svgElement.(viewBoxAttr) = Some attr ->
  truthy attr = true ->
  (count_char " " attr < 3)%nat ->
  exists k,
    getSvgImageSize StringToNumber blob = Await (QuerySvgElement blob) k
    /\ exists size,
         k (Some svgElement) = Resolved (Some size)
         /\ is_nan size.(height) = true
         /\ ((count_char " " attr < 2)%nat -> is_nan size.(width) = true).
Proof.
  intros Hattributes HviewBox Htruthy Hspaces.
  eexists. split; [reflexivity|]. cbn beta iota.
  rewrite Hattributes, HviewBox.
  change (truthy (Some attr)) with (truthy attr).
  rewrite Htruthy. cbn beta iota zeta. rewrite Htruthy.
  destruct (split_on_join " " attr) as (_ & Hlength & _).
  eexists. split; [reflexivity|]. cbn [height width]. split.
  - assert (Hnone : nth_error (split_on " " attr) 3 = None)
      by (apply nth_error_None; lia).
    now rewrite Hnone.
  - intros Hfewer.
    assert (Hnone : nth_error (split_on " " attr) 2 = None)
      by (apply nth_error_None; lia).
    now rewrite Hnone.
Qed.

Lemma loadImageFromObjectUrl_outcomes (url : string) :
  (forall e, rejects (loadImageFromObjectUrl url) e -> e = ErrorEvent)
  /\ (forall P, performs P (loadImageFromObjectUrl url) -> P _ (ImageOnLoad url)).
Proof.
  unfold loadImageFromObjectUrl. simpl. split.
  - intros e [[img|] H]; simpl in H; [contradiction | now symmetry].
  - intros P [H | [[img|] H]]; simpl in H; [exact H | contradiction..].
Qed.

(** X23.  Whatever the host answers, a [LoadedImage] that
    [transformLoadedImage] resolves with carries the original variant and
    the exif transform it was given; its transformed variant is either
    that original or has the size its own bitmap reports. *)
Theorem transformLoadedImage_keeps_original
    (loadedImage : PartialImage.t) (options : LoadImageOptions)
    (forceTransform : bool) (result : LoadedImage) :
  resolves (transformLoadedImage loadedImage options forceTransform) result ->
  result.(original) = loadedImage.(PartialImage.original)
  /\ result.(exifTransform) = loadedImage.(PartialImage.exifTransform)
  /\ (result.(transformed) = loadedImage.(PartialImage.original)
      \/ result.(transformed).(size)
         = {| width := result.(transformed).(image).(elementWidth);
              height := result.(transformed).(image).(elementHeight) |}).
Proof.
  unfold transformLoadedImage.
  destruct (negb forceTransform && _ && _ && _).
  - simpl. intros <-.
    destruct (reuseOriginal_transformed loadedImage) as [Ht Ho].
    rewrite Ht, Ho. repeat split. now left.
  - simpl. intros (canvas & [blob|] & H); simpl in H; [|contradiction].
    destruct H as (url & [img|] & H); simpl in H; [|contradiction].
    subst result. cbn [original transformed exifTransform size image].
    repeat split; [|now right].
    now destruct loadedImage.(PartialImage.original).
Qed.

Lemma transformLoadedImage_outcomes
    (loadedImage : PartialImage.t) (options : LoadImageOptions)
    (forceTransform : bool) :
  (forall e, rejects (transformLoadedImage loadedImage options forceTransform) e ->
     e = ErrorObject "Failed to get Blob for transformed image." \/ e = ErrorEvent)
  /\ ~ performs queryingSvg (transformLoadedImage loadedImage options forceTransform).
Proof.
  unfold transformLoadedImage.
  destruct (negb forceTransform && _ && _ && _); simpl; split.
  - intros e [].
  - intros [].
  - intros e (canvas & [blob|] & H); simpl in H.
    + destruct H as (url & [img|] & H); simpl in H; [contradiction|].
      right. now symmetry.
    + left. now symmetry.
  - intros [[] | (canvas & [[] | ([blob|] & H)])]; simpl in H; [|contradiction].
    destruct H as [[] | (url & [[] | ([img|] & H)])]; simpl in H; contradiction.
Qed.

Section WithCollaborators.

Variable getTransformationsFromExifData : Z + ArrayBufferLike -> ExifTransform.
Variable StringToNumber : string -> number.

Lemma getSvgImageSize_outcomes (blob : Blob) :
  (forall e, rejects (getSvgImageSize StringToNumber blob) e ->
     e = ErrorObject "Failed to parse SVG image"
     \/ e = ErrorObject
          "Failed to load SVG image. SVG must have width + height or viewBox definition.")
  /\ (forall P, performs P (getSvgImageSize StringToNumber blob) ->
        P _ (QuerySvgElement blob)).
Proof.
  unfold getSvgImageSize. simpl. split.
  - intros e [[el|] H]; simpl in H; [|left; now symmetry].
    destruct (truthy (widthAttr el) && truthy (heightAttr el)); [contradiction|].
    destruct (if truthy (viewBoxAttr el) then viewBoxAttr el else viewboxAttr el)
      as [attr|]; [|right; now symmetry].
    destruct (truthy attr); [contradiction | right; now symmetry].
  - intros P [H | [[el|] H]]; simpl in H; [exact H | | contradiction].
    destruct (truthy (widthAttr el) && truthy (heightAttr el)); [contradiction|].
    destruct (if truthy (viewBoxAttr el) then viewBoxAttr el else viewboxAttr el)
      as [attr|]; [|contradiction].
    destruct (truthy attr); contradiction.
Qed.

Lemma transformImageFromArrayBuffer_outcomes
    (res : LoadImageArrayBuffer) (options : LoadImageOptions) (forceTransform : bool) :
  (forall e,
     rejects (transformImageFromArrayBuffer getTransformationsFromExifData
                res options forceTransform) e ->
     e = ErrorObject "No image loaded"
     \/ e = ErrorObject "Failed to get Blob for transformed image."
     \/ e = ErrorEvent)
  /\ ~ performs queryingSvg
         (transformImageFromArrayBuffer getTransformationsFromExifData
            res options forceTransform).
Proof.
  unfold transformImageFromArrayBuffer. simpl. split.
  - intros e [autoRotate H].
    destruct (negb (complete (originalImage res))); simpl in H.
    + left. now symmetry.
    + right. eapply transformLoadedImage_outcomes. exact H.
  - intros [[] | [autoRotate H]].
    destruct (negb (complete (originalImage res))); simpl in H; [contradiction|].
    eapply transformLoadedImage_outcomes. exact H.
Qed.

End WithCollaborators.

Lemma loadImageFromArrayBuffer_outcomes
    (getTransformationsFromExifData : Z + ArrayBufferLike -> ExifTransform)
    (StringToNumber : string -> number)
    (arrayBuffer : ArrayBufferLike) (options : LoadImageOptions)
    (imageType : option string) :
  let load := loadImageFromArrayBuffer getTransformationsFromExifData StringToNumber
                arrayBuffer options imageType in
  (forall e, rejects load e -> In e (tl serviceErrors))
  /\ (performs queryingSvg load -> imageType = Some "image/svg+xml"%string).
Proof.
  intros load. subst load. unfold loadImageFromArrayBuffer.
  set (blob := {| blobParts := arrayBuffer;
                  blobType := if truthy imageType then imageType else None |}).
  set (isSvg := match imageType with
                | Some type => (type =? "image/svg+xml")%string
                | None => false
                end).
  split.
  - intros e H.
    apply rejects_bind in H. destruct H as [H | (url & _ & H)];
      [now apply rejects_await in H|].
    apply rejects_bind in H. destruct H as [H | (svgSize & _ & H)].
    { destruct isSvg; [|contradiction].
      apply (getSvgImageSize_outcomes StringToNumber) in H.
      destruct H as [-> | ->]; simpl; tauto. }
    apply rejects_bind in H. destruct H as [H | (img & _ & H)].
    { apply loadImageFromObjectUrl_outcomes in H. subst e. simpl. tauto. }
    apply transformImageFromArrayBuffer_outcomes in H.
    destruct H as [-> | [-> | ->]]; simpl; tauto.
  - intros H.
    apply performs_bind in H. destruct H as [H | (url & _ & H)];
      [apply performs_await in H; contradiction|].
    apply performs_bind in H. destruct H as [H | (svgSize & _ & H)].
    { subst isSvg. destruct imageType as [type|]; [|contradiction].
      destruct (String.eqb_spec type "image/svg+xml") as [-> | _];
        [reflexivity | contradiction]. }
    apply performs_bind in H. destruct H as [H | (img & _ & H)].
    { apply loadImageFromObjectUrl_outcomes in H. contradiction. }
    now apply transformImageFromArrayBuffer_outcomes in H.
Qed.


(** X25.  [loadImageFile] reads the SVG document for its size exactly
    when [checkImageType] is on and the declared type is the string
    [image/svg+xml], nothing more and nothing less: with the check off the
    declared type is not passed on, so no SVG gets its size from its
    [viewBox]. *)
Theorem loadImageFile_queries_svg_iff
    (getTransformationsFromExifData : Z + ArrayBufferLike -> ExifTransform)
    (StringToNumber : string -> number)
    (file : File) (options : LoadImageOptions) :
  performs queryingSvg
    (loadImageFile getTransformationsFromExifData StringToNumber file options)
  <-> truthy options.(LoadOptions.checkImageType) = true
      /\ file.(fileType) = "image/svg+xml"%string.
Proof.
  unfold loadImageFile. simpl. split.
  - intros [[] | [arrayBuffer H]].
    destruct (truthy options.(LoadOptions.checkImageType)).
    + unfold checkImageTypeAndLoadImageFromArrayBuffer in H.
      destruct (negb (isValidImageType file.(fileType))); simpl in H;
        [contradiction|].
      pose proof (proj2 (loadImageFromArrayBuffer_outcomes
                           getTransformationsFromExifData StringToNumber
                           arrayBuffer options (Some file.(fileType))) H) as Htype.
      injection Htype as Htype. now split.
    + pose proof (proj2 (loadImageFromArrayBuffer_outcomes
                           getTransformationsFromExifData StringToNumber
                           arrayBuffer options None) H) as Htype.
      discriminate Htype.
  - intros [Hcheck Htype]. rewrite Hcheck, Htype.
    right. exists []. simpl. right. exists EmptyString. simpl. now left.
Qed.

(** X26.  A load that resolves has a complete original bitmap: the
    [LoadedImage] that [transformImageFromArrayBuffer] resolves with holds
    the decoded image and its object URL, with the size override if there
    is one and the natural size otherwise, and an exif transform read
    either from the bytes or, where the host rotates by itself, from
    [-1]. *)
Theorem transformImageFromArrayBuffer_resolved
    (getTransformationsFromExifData : Z + ArrayBufferLike -> ExifTransform)
    (res : LoadImageArrayBuffer) (options : LoadImageOptions)
    (forceTransform : bool) (result : LoadedImage) :
  resolves (transformImageFromArrayBuffer getTransformationsFromExifData
              res options forceTransform) result ->
  res.(originalImage).(complete) = true
  /\ result.(original)
     = {| objectUrl := res.(originalObjectUrl);
          image := res.(originalImage);
          size := res.(originalImageSize) ??
                    {| width := res.(originalImage).(naturalWidth);
                       height := res.(originalImage).(naturalHeight) |} |}
  /\ (result.(exifTransform) = getTransformationsFromExifData (inl (-1)%Z)
      \/ result.(exifTransform)
         = getTransformationsFromExifData (inr res.(originalArrayBuffer))).
Proof.
  unfold transformImageFromArrayBuffer. simpl. intros [autoRotate H].
  destruct (complete (originalImage res)); simpl in H; [|contradiction].
  split; [reflexivity|].
  unfold transformLoadedImage in H.
  cbn [PartialImage.original PartialImage.exifTransform size] in H.
  assert (Hexif : forall transform,
            transform = getTransformationsFromExifData
                          (if autoRotate then inl (-1)%Z
                           else inr res.(originalArrayBuffer)) ->
            transform = getTransformationsFromExifData (inl (-1)%Z)
            \/ transform = getTransformationsFromExifData
                             (inr res.(originalArrayBuffer)))
    by (intros transform ->; destruct autoRotate; tauto).
  destruct (negb forceTransform && _ && _ && _); simpl in H.
  - subst result. split; [reflexivity|]. now apply Hexif.
  - destruct H as (canvas & [blob|] & H); simpl in H; [|contradiction].
    destruct H as (url & [img|] & H); simpl in H; [|contradiction].
    subst result. split; [reflexivity|]. now apply Hexif.
Qed.

(** X27.  If the decoded image is not complete,
    [transformImageFromArrayBuffer] rejects with 'No image loaded'
    whatever the host answers: it never resolves and does no canvas
    work. *)
Theorem transformImageFromArrayBuffer_incomplete
    (getTransformationsFromExifData : Z + ArrayBufferLike -> ExifTransform)
    (res : LoadImageArrayBuffer) (options : LoadImageOptions)
    (forceTransform : bool) :
  res.(originalImage).(complete) = false ->
  let load := transformImageFromArrayBuffer getTransformationsFromExifData
                res options forceTransform in
  (forall e, rejects load e <-> e = ErrorObject "No image loaded")
  /\ (forall result, ~ resolves load result)
  /\ ~ performs rendering load.
Proof.
  intros Hincomplete load. subst load.
  unfold transformImageFromArrayBuffer. simpl. rewrite Hincomplete. simpl.
  split; [|split].
  - intros e. split; [intros [_ H]; now symmetry | intros ->; now exists true].
  - intros result [_ []].
  - intros [[] | [_ []]].
Qed.

End LoadImageMore.

(* ================================================================== *)
(** * The further properties on concrete inputs *)
(* ================================================================== *)

Section MoreExamples.
Import CropperState LoadImageService.

Local Open Scope float_scope.

(** X2 on a rejected update: the merged ratio 0 is in the state. *)
Lemma setOptions_writes_merged_options_witness :
  exists after,
    setOptions Sample.keep Sample.zeroRatio Sample.ready
      = Throw ConfigurationError after
    /\ after.(options).(Options.aspectRatio) = Some 0
    /\ after.(maxSize) = {| width := 200; height := 200 |}.
Proof.
  eexists. split; [reflexivity|].
  destruct (setOptions_writes_merged_options Sample.keep Sample.zeroRatio Sample.ready
              (after := set_options (merge Sample.ready.(options) Sample.zeroRatio)
                          Sample.ready)
              (or_intror (ex_intro _ ConfigurationError eq_refl)))
    as (Hoptions & _ & Hmax & _).
  split; [now rewrite Hoptions | exact Hmax].
Defined.

(** X4 on a fresh engine: a minimum width is stored, no size is scaled. *)
Lemma setOptions_without_complete_image_witness :
  setOptions Sample.keep Sample.minWidthOnly new
  = Normal (set_options (merge defaultOptions Sample.minWidthOnly) new).
Proof.
  exact (setOptions_without_complete_image Sample.keep Sample.minWidthOnly new
           eq_refl eq_refl).
Defined.

(** X6 on the ready engine: a minimum width of 30 scales to 60, the
    maxima stay at 200. *)
Lemma setOptions_size_update_witness :
  exists after,
    setOptions Sample.keep Sample.minWidthOnly Sample.ready = Normal after
    /\ (after.(cropperScaledMinWidth), after.(cropperScaledMinHeight)) = (60, 60)
    /\ (after.(cropperScaledMaxWidth), after.(cropperScaledMaxHeight)) = (200, 200).
Proof.
  destruct (setOptions_size_update Sample.keep Sample.minWidthOnly Sample.ready
              eq_refl eq_refl eq_refl eq_refl)
    as (after & Hreturn & Hmin & Hmax & _).
  exists after. repeat split; assumption.
Defined.

(** X9 on a fresh engine. *)
Lemma setMaxSize_without_image_witness :
  (setMaxSize 640 480 new).(cropperScaledMaxWidth) = 640
  /\ (setMaxSize 640 480 new).(cropperScaledMaxHeight) = 480.
Proof.
  destruct (setMaxSize_without_image 640 480 new eq_refl) as (_ & _ & Hw & Hh).
  now split.
Defined.

(** X10 on the ready engine. *)
Lemma resizeCropperPosition_same_size_witness :
  resizeCropperPosition {| width := 200; height := 200 |} Sample.ready = Sample.ready.
Proof.
  exact (resizeCropperPosition_same_size Sample.ready eq_refl eq_refl).
Defined.

(** X11 on an engine whose size is not a number. *)
Lemma resizeCropperPosition_NaN_width_witness :
  is_nan (resizeCropperPosition Sample.unmeasured.(maxSize) Sample.unmeasured)
           .(cropper).(x1) = true.
Proof.
  exact (proj1 (resizeCropperPosition_NaN_width Sample.unmeasured eq_refl)).
Defined.

(** X12 on the ready engine, told that its old size was zero. *)
Lemma resizeCropperPosition_from_zero_witness :
  isFinite (resizeCropperPosition {| width := 0; height := 0 |} Sample.ready)
             .(cropper).(x2) = false.
Proof.
  exact (proj2 (proj1 (resizeCropperPosition_from_zero
                         {| width := 0; height := 0 |} Sample.ready eq_refl)
                      eq_refl)).
Defined.

(** X13 on a fresh engine, whose rectangle is all zero. *)
Lemma aspectRatioIsCorrect_NaN_ratio_witness : aspectRatioIsCorrect new = false.
Proof.
  exact (aspectRatioIsCorrect_NaN_ratio new eq_refl).
Defined.

(** X17: the single input 3 wins over the 2 of the [options] object. *)
Lemma setOptionsFromChanges_inputs_override_witness :
  exists after,
    setOptionsFromChanges Sample.keep Sample.overridingChanges new = Normal after
    /\ after.(options).(Options.aspectRatio) = Some 3.
Proof.
  eexists. split; [reflexivity|].
  destruct (setOptionsFromChanges_inputs_override Sample.keep
              Sample.overridingChanges new eq_refl) as (Hoptions & _).
  now rewrite Hoptions.
Defined.

(** X18: the ratio 0 of the [options] object throws before the single
    input 3 is looked at. *)
Lemma setOptionsFromChanges_stops_at_first_error_witness :
  setOptionsFromChanges Sample.keep Sample.mendingChanges new
  = Throw ConfigurationError
      (set_options (merge defaultOptions Sample.zeroRatio) new).
Proof.
  exact (setOptionsFromChanges_stops_at_first_error Sample.keep
           Sample.mendingChanges new eq_refl eq_refl eq_refl).
Defined.


(** X20 on a quarter turn. *)
Lemma getTransformedSize_twice_witness :
  getTransformedSize
    (getTransformedSize {| width := 100; height := 200 |}
       {| rotate := 0; flip := false |} (Sample.rotated 1))
    {| rotate := 0; flip := false |} (Sample.rotated 1)
  = {| width := 100; height := 200 |}.
Proof.
  exact (getTransformedSize_twice {| width := 100; height := 200 |}
           {| rotate := 0; flip := false |} (Sample.rotated 1) eq_refl).
Defined.

(** X21 for a portrait image contained in a 2 to 1 frame: the canvas of
    400 by 200 is at least the image in both dimensions. *)
Lemma getTransformedSize_contains_witness :
  getTransformedSize {| width := 100; height := 200 |}
    {| rotate := 0; flip := false |} (Sample.contained 2)
  = {| width := 400; height := 200 |}
  /\ (100 <=? 400) = true /\ (200 <=? 200) = true.
Proof.
  destruct (getTransformedSize_contains {| width := 100; height := 200 |}
              {| rotate := 0; flip := false |} (Sample.contained 2) eq_refl)
    as [Hwidth Hheight].
  split; [reflexivity|]. split; [exact (Hwidth eq_refl) | exact (Hheight eq_refl)].
Defined.

(** X22 on a comma-separated [viewBox]. *)
Lemma getSvgImageSize_short_viewBox_witness :
  exists k,
    getSvgImageSize Sample.notANumber Sample.emptyBlob
      = Await (QuerySvgElement Sample.emptyBlob) k
    /\ exists size,
         k (Some Sample.commaViewBox) = Resolved (Some size)
         /\ is_nan size.(height) = true.
Proof.
  destruct (getSvgImageSize_short_viewBox Sample.notANumber Sample.emptyBlob
              Sample.commaViewBox (attr := "0,0,100,100")
              eq_refl eq_refl eq_refl ltac:(simpl; lia))
    as (k & Hk & size & Hsize & Hheight & _).
  exists k. split; [exact Hk|]. exists size. now split.
Defined.

(** X23 on an upright image that needs no transform. *)
Lemma transformLoadedImage_keeps_original_witness :
  resolves (transformLoadedImage (Sample.decoded 100 200) (Sample.rotated 0) false)
    (reuseOriginal (Sample.decoded 100 200))
  /\ (reuseOriginal (Sample.decoded 100 200)).(original) = Sample.variant 100 200.
Proof.
  split; [reflexivity|].
  exact (proj1 (transformLoadedImage_keeps_original
                  (Sample.decoded 100 200) (Sample.rotated 0) false
                  (reuseOriginal (Sample.decoded 100 200)) eq_refl)).
Defined.


(** X26 on a complete bitmap of 100 by 200 that needs no transform. *)
Lemma transformImageFromArrayBuffer_resolved_witness :
  exists result,
    resolves (transformImageFromArrayBuffer Sample.noExifData (Sample.fetched true)
                (Sample.rotated 0) false) result
    /\ (Sample.fetched true).(originalImage).(complete) = true.
Proof.
  eexists. split; [exists true; reflexivity|].
  exact (proj1 (@transformImageFromArrayBuffer_resolved Sample.noExifData
                  (Sample.fetched true) (Sample.rotated 0) false
                  (reuseOriginal
                     {| PartialImage.original :=
                          {| objectUrl := "blob:original";
                             image := (Sample.fetched true).(originalImage);
                             size := {| width := 100; height := 200 |} |};
                        PartialImage.transformed := None;
                        PartialImage.exifTransform := Sample.noExifData (inl (-1)%Z) |})
                  (ex_intro _ true eq_refl))).
Defined.

(** X27 on a bitmap that is not complete. *)
Lemma transformImageFromArrayBuffer_incomplete_witness :
  rejects (transformImageFromArrayBuffer Sample.noExifData (Sample.fetched false)
             (Sample.rotated 0) false)
    (ErrorObject "No image loaded").
Proof.
  exact (proj2 (proj1 (transformImageFromArrayBuffer_incomplete Sample.noExifData
                         (Sample.fetched false) (Sample.rotated 0) false eq_refl)
                      (ErrorObject "No image loaded"))
               eq_refl).
Defined.

End MoreExamples.
